(** * MG_two_storages_env: the microgrid environment with two storages

    A shallow embedding of [MyEnv] of
    [General_Deep_Q_RL/environments/MG_two_storages_env.py] and the
    properties of its state machine.

    Conventions of the embedding.
    - Python floats and NumPy float64 scalars are exact rationals ([Q]):
      the arithmetic is the one the source writes, without rounding.
      Statements about numbers use [==] ([Qeq]).
    - [/] between two integers is true division (Python 3).
    - Python list objects live in a store ([heap]) and are handled through
      references, so that in-place updates and copies are what they are in
      the source.  NumPy arrays are never written to by the environment and
      are plain lists of rationals.
    - A call runs in the monad [M]: it threads the world (the attributes of
      [self] and the store) and ends in [Return] or in [Raise]; the world at
      a [Raise] is the world as mutated up to the raising statement.
    - The diagnostics ([print]), [summarizePerformance] and [main] are not
      embedded, nor is the attribute [_rng], which nothing reads. *)

From Stdlib Require Import ZArith QArith Qminmax Qabs Lqa Lia List.
From stdpp Require Import base option list gmap.

Local Open Scope Z_scope.

(** ** Python values and the store *)

Definition loc := positive.

(** A value held in a list: a number, or a reference to a list object. *)
Inductive val : Type :=
  | Num (q : Q)
  | Ref (p : loc).

Inductive exn : Type :=
  | AttributeError
  | IndexError
  | TypeError
  | UnboundLocalError
  | ValueError
  | ZeroDivisionError
  | RecursionError
  | SystemError.

Inductive outcome (A : Type) : Type :=
  | Return (a : A)
  | Raise (e : exn).
Arguments Return {A} a.
Arguments Raise {A} e.

(** Creating a list object: a new identity, never one in use. *)
Definition alloc (h : gmap loc (list val)) (items : list val)
  : loc * gmap loc (list val) :=
  let p := fresh (dom h) in (p, <[p := items]> h).

(** The value a reference denotes, read down to [fuel] levels of nesting. *)
#[warnings="-register-all"]
Inductive pytree : Type :=
  | PNum (q : Q)
  | PList (items : list pytree).

Fixpoint tree_of (fuel : nat) (h : gmap loc (list val)) (v : val)
  : option pytree :=
  match v with
  | Num q => Some (PNum q)
  | Ref p =>
      match fuel with
      | O => None
      | S n =>
          match h !! p with
          | None => None
          | Some items =>
              (fix go (l : list val) : option (list pytree) :=
                 match l with
                 | [] => Some []
                 | a :: rest =>
                     match tree_of n h a, go rest with
                     | Some t, Some ts => Some (t :: ts)
                     | _, _ => None
                     end
                 end) items ≫= λ ts, Some (PList ts)
          end
      end
  end.

(** The list objects a value reaches, down to [fuel] levels. *)
Fixpoint locs_of (fuel : nat) (h : gmap loc (list val)) (v : val)
  : list loc :=
  match v with
  | Num _ => []
  | Ref p =>
      match fuel with
      | O => [p]
      | S n =>
          p :: match h !! p with
               | None => []
               | Some items => concat (map (locs_of n h) items)
               end
      end
  end.

(** ** NumPy arrays and builtins *)

Local Open Scope Q_scope.

Definition Qlt_bool (x y : Q) : bool := negb (Qle_bool y x).

(** [a[i]] on a one-dimensional array: negative indices count from the
    end, anything else out of range is an IndexError. *)
Definition np_index (a : list Q) (i : Z) : option Q :=
  let n := Z.of_nat (length a) in
  if ((0 <=? i) && (i <? n))%Z then a !! Z.to_nat i
  else if ((- n <=? i) && (i <? 0))%Z then a !! Z.to_nat (i + n)
  else None.

(** A slice bound, as Python normalises it against the length [n]. *)
Definition slice_bound (n i : Z) : Z :=
  if (i <? 0)%Z then Z.max 0 (i + n) else Z.min i n.

(** [a[lo:hi]]: never raises, clips to the array. *)
Definition np_slice (a : list Q) (lo hi : Z) : list Q :=
  let n := Z.of_nat (length a) in
  let lo' := slice_bound n lo in
  let hi' := slice_bound n hi in
  take (Z.to_nat (hi' - lo')) (drop (Z.to_nat lo') a).

(** The builtin [sum]: starts from 0 and adds from the left. *)
Definition py_sum (a : list Q) : Q := fold_left Qplus a 0.

(** The builtins [min] and [max] on a sequence: the first extremal element;
    ValueError on an empty sequence. *)
Definition py_min_seq (a : list Q) : option Q :=
  match a with
  | [] => None
  | x :: rest => Some (fold_left (fun m y => if Qlt_bool y m then y else m) rest x)
  end.

Definition py_max_seq (a : list Q) : option Q :=
  match a with
  | [] => None
  | x :: rest => Some (fold_left (fun m y => if Qlt_bool m y then y else m) rest x)
  end.

(** [min(a, b)] on two arguments: [b] when [b < a], else [a]. *)
Definition py_min (a b : Q) : Q := if Qlt_bool b a then b else a.


(** The value passed as [mode]: an int, or a bool (as [main] passes).
    Python compares a bool with an int as 0 or 1. *)
Inductive pyint : Type :=
  | PInt (z : Z)
  | PBool (b : bool).

Definition int_of (m : pyint) : Z :=
  match m with
  | PInt z => z
  | PBool true => 1%Z
  | PBool false => 0%Z
  end.

Definition py_eq_int (m : pyint) (k : Z) : bool := (int_of m =? k)%Z.

(** ** The environment object *)

(** The four files [__init__] loads with [np.load]. *)
Record data_files : Type := {
  cons_train_npy : list Q;  (* data/example_nondeterminist_cons_train.npy *)
  cons_test_npy : list Q;   (* data/example_nondeterminist_cons_test.npy *)
  prod_train_npy : list Q;  (* data/BelgiumPV_prod_train.npy *)
  prod_test_npy : list Q    (* data/BelgiumPV_prod_test.npy *)
}.

(** Attributes assigned in [__init__] only. *)
Record MyEnv_fixed : Type := {
  _dist_equinox : Z;
  _pred : Z;
  _nActions : Z;
  _inputDimensions : option (list (list Z));
  consumption_train_norm : list Q;
  consumption_valid_norm : list Q;
  consumption_test_norm : list Q;
  consumption_train : list Q;
  consumption_valid : list Q;
  consumption_test : list Q;
  min_consumption : Q;
  max_consumption : Q;
  production_train_norm : list Q;
  production_valid_norm : list Q;
  production_test_norm : list Q;
  production_train : list Q;
  production_valid : list Q;
  production_test : list Q;
  min_production : Q;
  max_production : Q;
  battery_size : Q;
  battery_eta : Q;
  hydrogen_max_power : Q;
  hydrogen_eta : Q
}.

(** The object: the attributes above and those [reset] and [act] assign.
    An attribute not assigned yet is [None]. *)
Record MyEnv : Type := {
  fixed : MyEnv_fixed;
  _lastPonctualObservation : option val;
  counter : option Z;
  hydrogen_storage : option Q;
  production_norm : option (list Q);
  production : option (list Q);
  consumption_norm : option (list Q);
  consumption : option (list Q)
}.

Record world : Type := {
  self : MyEnv;
  heap : gmap loc (list val)
}.

Definition set__lastPonctualObservation (v : val) (e : MyEnv) : MyEnv :=
  {| fixed := fixed e; _lastPonctualObservation := Some v;
     counter := counter e; hydrogen_storage := hydrogen_storage e;
     production_norm := production_norm e; production := production e;
     consumption_norm := consumption_norm e; consumption := consumption e |}.

Definition set_counter (c : Z) (e : MyEnv) : MyEnv :=
  {| fixed := fixed e; _lastPonctualObservation := _lastPonctualObservation e;
     counter := Some c; hydrogen_storage := hydrogen_storage e;
     production_norm := production_norm e; production := production e;
     consumption_norm := consumption_norm e; consumption := consumption e |}.

Definition set_hydrogen_storage (x : Q) (e : MyEnv) : MyEnv :=
  {| fixed := fixed e; _lastPonctualObservation := _lastPonctualObservation e;
     counter := counter e; hydrogen_storage := Some x;
     production_norm := production_norm e; production := production e;
     consumption_norm := consumption_norm e; consumption := consumption e |}.

Definition set_production_norm (a : list Q) (e : MyEnv) : MyEnv :=
  {| fixed := fixed e; _lastPonctualObservation := _lastPonctualObservation e;
     counter := counter e; hydrogen_storage := hydrogen_storage e;
     production_norm := Some a; production := production e;
     consumption_norm := consumption_norm e; consumption := consumption e |}.

Definition set_production (a : list Q) (e : MyEnv) : MyEnv :=
  {| fixed := fixed e; _lastPonctualObservation := _lastPonctualObservation e;
     counter := counter e; hydrogen_storage := hydrogen_storage e;
     production_norm := production_norm e; production := Some a;
     consumption_norm := consumption_norm e; consumption := consumption e |}.

Definition set_consumption_norm (a : list Q) (e : MyEnv) : MyEnv :=
  {| fixed := fixed e; _lastPonctualObservation := _lastPonctualObservation e;
     counter := counter e; hydrogen_storage := hydrogen_storage e;
     production_norm := production_norm e; production := production e;
     consumption_norm := Some a; consumption := consumption e |}.

Definition set_consumption (a : list Q) (e : MyEnv) : MyEnv :=
  {| fixed := fixed e; _lastPonctualObservation := _lastPonctualObservation e;
     counter := counter e; hydrogen_storage := hydrogen_storage e;
     production_norm := production_norm e; production := production e;
     consumption_norm := consumption_norm e; consumption := Some a |}.

(** ** The monad of method calls *)

Definition M (A : Type) : Type := world -> outcome A * world.

Definition ret {A} (a : A) : M A := fun w => (Return a, w).

Definition raise {A} (e : exn) : M A := fun w => (Raise e, w).

Definition bind {A B} (m : M A) (k : A -> M B) : M B :=
  fun w =>
    match m w with
    | (Return a, w') => k a w'
    | (Raise e, w') => (Raise e, w')
    end.

Notation "x <- m ;; k" := (bind m (fun x => k))
  (at level 100, m at next level, right associativity).
Notation "m ;;; k" := (bind m (fun _ => k))
  (at level 100, right associativity).

(** [self.attr] for an attribute of [__init__]. *)
Definition getfixed {A} (f : MyEnv_fixed -> A) : M A :=
  fun w => (Return (f (fixed (self w))), w).

(** [self.attr]: AttributeError when it was never assigned. *)
Definition getattr {A} (f : MyEnv -> option A) : M A :=
  fun w =>
    match f (self w) with
    | Some a => (Return a, w)
    | None => (Raise AttributeError, w)
    end.

(** [self.attr = x]. *)
Definition setattr (f : MyEnv -> MyEnv) : M unit :=
  fun w => (Return tt, {| self := f (self w); heap := heap w |}).

Definition lift {A} (e : exn) (o : option A) : M A :=
  match o with
  | Some a => ret a
  | None => raise e
  end.

(** A list display [[a, b, ...]]: a new list object. *)
Definition new_list (items : list val) : M val :=
  fun w =>
    let (p, h) := alloc (heap w) items in
    (Return (Ref p), {| self := self w; heap := h |}).

(** [v[i]] for a literal index [i >= 0]. *)
Definition getitem (v : val) (i : nat) : M val :=
  match v with
  | Num _ => raise TypeError
  | Ref p =>
      fun w =>
        match heap w !! p with
        | None => (Raise SystemError, w)
        | Some items =>
            match items !! i with
            | Some x => (Return x, w)
            | None => (Raise IndexError, w)
            end
        end
  end.

(** [v[i] = x] for an index [i >= 0]: updates the list object in place. *)
Definition setitem (v : val) (i : nat) (x : val) : M unit :=
  match v with
  | Num _ => raise TypeError
  | Ref p =>
      fun w =>
        match heap w !! p with
        | None => (Raise SystemError, w)
        | Some items =>
            if decide (i < length items)%nat
            then (Return tt, {| self := self w; heap := <[p := <[i := x]> items]> (heap w) |})
            else (Raise IndexError, w)
        end
  end.

(** A value used as an operand of float arithmetic. *)
Definition as_float (v : val) : M Q :=
  match v with
  | Num q => ret q
  | Ref _ => raise TypeError
  end.

(** [x / y]; a zero divisor, which [__init__] never sets, is reported as
    ZeroDivisionError. *)
Definition div (x y : Q) : M Q :=
  if Qeq_bool y 0 then raise ZeroDivisionError else ret (x / y).

(** ** [__init__] (lines 27-93) *)

(** Lines 34-35 assign 0 to both flags; they are parameters here, so that
    the layouts the branches of lines 41-49 provide for can be stated.
    [store0] is the store the constructor runs in. *)
Definition init_with (dist_equinox pred : Z) (files : data_files)
    (store0 : gmap loc (list val)) : outcome world :=
  let inc_sizing := 1 in
  let nActions := 3%Z in
  (* lines 41-49 *)
  let '(obs, dims, h) :=
    if ((dist_equinox =? 1) && (pred =? 1))%Z then
      let (a, h1) := alloc store0 [Num 0; Num 0] in
      let (b, h2) := alloc h1 [Num 0; Num 0] in
      let (o, h3) := alloc h2 [Num 0; Ref a; Num 0; Ref b] in
      (Some (Ref o), Some [[1]; [12; 2]; [1]; [1; 2]]%Z, h3)
    else if ((dist_equinox =? 1) && (pred =? 0))%Z then
      let (a, h1) := alloc store0 [Num 0; Num 0] in
      let (o, h2) := alloc h1 [Num 0; Ref a; Num 0] in
      (Some (Ref o), Some [[1]; [12; 2]; [1]]%Z, h2)
    else if ((dist_equinox =? 0) && (pred =? 0))%Z then
      let (a, h1) := alloc store0 [Num 0; Num 0] in
      let (o, h2) := alloc h1 [Num 0; Ref a] in
      (Some (Ref o), Some [[1]; [12; 2]]%Z, h2)
    else (None, None, store0) in
  (* lines 54-60 *)
  let consumption_train_norm_ := np_slice (cons_train_npy files) 0 (1 * 365 * 24) in
  let consumption_valid_norm_ := np_slice (cons_train_npy files) (365 * 24) (2 * 365 * 24) in
  let consumption_test_norm_ := np_slice (cons_test_npy files) 0 (1 * 365 * 24) in
  let consumption_train_ := map (fun x => x * 2.1) consumption_train_norm_ in
  let consumption_valid_ := map (fun x => x * 2.1) consumption_valid_norm_ in
  let consumption_test_ := map (fun x => x * 2.1) consumption_test_norm_ in
  (* lines 62-63 *)
  match py_min_seq consumption_train_, py_max_seq consumption_train_ with
  | Some min_consumption_, Some max_consumption_ =>
      (* lines 72-78 *)
      let production_train_norm_ := np_slice (prod_train_npy files) 0 (1 * 365 * 24) in
      let production_valid_norm_ := np_slice (prod_train_npy files) (365 * 24) (2 * 365 * 24) in
      let production_test_norm_ := np_slice (prod_test_npy files) 0 (1 * 365 * 24) in
      let production_train_ := map (fun x => x * 12000 / 1000 * inc_sizing) production_train_norm_ in
      let production_valid_ := map (fun x => x * 12000 / 1000 * inc_sizing) production_valid_norm_ in
      let production_test_ := map (fun x => x * 12000 / 1000 * inc_sizing) production_test_norm_ in
      (* lines 80-81 *)
      match py_min_seq production_train_, py_max_seq production_train_ with
      | Some min_production_, Some max_production_ =>
          Return
            {| self :=
                 {| fixed :=
                      {| _dist_equinox := dist_equinox;
                         _pred := pred;
                         _nActions := nActions;
                         _inputDimensions := dims;
                         consumption_train_norm := consumption_train_norm_;
                         consumption_valid_norm := consumption_valid_norm_;
                         consumption_test_norm := consumption_test_norm_;
                         consumption_train := consumption_train_;
                         consumption_valid := consumption_valid_;
                         consumption_test := consumption_test_;
                         min_consumption := min_consumption_;
                         max_consumption := max_consumption_;
                         production_train_norm := production_train_norm_;
                         production_valid_norm := production_valid_norm_;
                         production_test_norm := production_test_norm_;
                         production_train := production_train_;
                         production_valid := production_valid_;
                         production_test := production_test_;
                         min_production := min_production_;
                         max_production := max_production_;
                         (* lines 89-93 *)
                         battery_size := 15 * inc_sizing;
                         battery_eta := 0.9;
                         hydrogen_max_power := 1.1 * inc_sizing;
                         hydrogen_eta := 0.65 |};
                    _lastPonctualObservation := obs;
                    counter := None;
                    hydrogen_storage := None;
                    production_norm := None;
                    production := None;
                    consumption_norm := None;
                    consumption := None |};
               heap := h |}
      | _, _ => Raise ValueError
      end
  | _, _ => Raise ValueError
  end.

(** The constructor as the source has it: both flags 0. *)
Definition __init__ (files : data_files) (store0 : gmap loc (list val))
  : outcome world :=
  init_with 0 0 files store0.

(** ** [reset] (lines 95-144) *)

(** [[[0., 0.] for i in range(n)]]: [n] distinct rows. *)
Fixpoint zero_rows (n : nat) : M (list val) :=
  match n with
  | O => ret []
  | S k =>
      r <- new_list [Num 0; Num 0] ;;
      rs <- zero_rows k ;;
      ret (r :: rs)
  end.

(** Lines 101-106: a new observation record, the battery full. *)
Definition reset_observation : M unit :=
  dist_equinox <- getfixed _dist_equinox ;;
  pred <- getfixed _pred ;;
  if ((dist_equinox =? 1) && (pred =? 1))%Z then
    a <- new_list [Num 0; Num 0] ;;
    b <- new_list [Num 0; Num 0] ;;
    o <- new_list [Num 1; a; Num 0; b] ;;
    setattr (set__lastPonctualObservation o)
  else if ((dist_equinox =? 1) && (pred =? 0))%Z then
    a <- new_list [Num 0; Num 0] ;;
    o <- new_list [Num 1; a; Num 0] ;;
    setattr (set__lastPonctualObservation o)
  else if ((dist_equinox =? 0) && (pred =? 0))%Z then
    a <- new_list [Num 0; Num 0] ;;
    o <- new_list [Num 1; a] ;;
    setattr (set__lastPonctualObservation o)
  else ret tt.

(** Lines 111-125: the series of the episode. *)
Definition reset_series (mode : pyint) : M unit :=
  if py_eq_int mode (-1) then
    x <- getfixed production_train_norm ;; setattr (set_production_norm x) ;;;
    x <- getfixed production_train ;; setattr (set_production x) ;;;
    x <- getfixed consumption_train_norm ;; setattr (set_consumption_norm x) ;;;
    x <- getfixed consumption_train ;; setattr (set_consumption x)
  else if py_eq_int mode 0 then
    x <- getfixed production_valid_norm ;; setattr (set_production_norm x) ;;;
    x <- getfixed production_valid ;; setattr (set_production x) ;;;
    x <- getfixed consumption_valid_norm ;; setattr (set_consumption_norm x) ;;;
    x <- getfixed consumption_valid ;; setattr (set_consumption x)
  else
    x <- getfixed production_test_norm ;; setattr (set_production_norm x) ;;;
    x <- getfixed production_test ;; setattr (set_production x) ;;;
    x <- getfixed consumption_test_norm ;; setattr (set_consumption_norm x) ;;;
    x <- getfixed consumption_test ;; setattr (set_consumption x).

(** Lines 127-144: the value returned, built from literals. *)
Definition reset_return : M val :=
  dist_equinox <- getfixed _dist_equinox ;;
  pred <- getfixed _pred ;;
  if ((dist_equinox =? 1) && (pred =? 1))%Z then
    rows <- zero_rows 12 ;;
    hist <- new_list rows ;;
    f <- new_list [Num 0; Num 0] ;;
    new_list [Num 0; hist; Num 0; f]
  else if ((dist_equinox =? 1) && (pred =? 0))%Z then
    rows <- zero_rows 12 ;;
    hist <- new_list rows ;;
    new_list [Num 0; hist; Num 0]
  else
    rows <- zero_rows 12 ;;
    hist <- new_list rows ;;
    new_list [Num 0; hist].

Definition reset (mode : pyint) : M val :=
  reset_observation ;;;
  (* lines 108-109 *)
  setattr (set_counter 1) ;;;
  setattr (set_hydrogen_storage 0) ;;;
  reset_series mode ;;;
  reset_return.

(** ** [act] (lines 146-211) *)

(** Lines 175-186: the short-term battery covers the lack of energy or
    takes the surplus; the reward after the loss-of-load penalty. *)
Definition act_battery (Energy_needed_from_battery reward : Q) : M Q :=
  if Qlt_bool 0 Energy_needed_from_battery then
    (* line 177 *)
    o <- getattr _lastPonctualObservation ;;
    v <- getitem o 0 ;;
    level <- as_float v ;;
    size <- getfixed battery_size ;;
    if Qlt_bool Energy_needed_from_battery (level * size) then
      (* line 179 *)
      o <- getattr _lastPonctualObservation ;;
      v <- getitem o 0 ;;
      size <- getfixed battery_size ;;
      d <- div Energy_needed_from_battery size ;;
      level <- as_float v ;;
      o <- getattr _lastPonctualObservation ;;
      setitem o 0 (Num (level - d)) ;;;
      ret reward
    else
      (* lines 182-183 *)
      o <- getattr _lastPonctualObservation ;;
      v <- getitem o 0 ;;
      level <- as_float v ;;
      size <- getfixed battery_size ;;
      let reward := reward - (Energy_needed_from_battery - level * size) * 2 in
      o <- getattr _lastPonctualObservation ;;
      setitem o 0 (Num 0) ;;;
      ret reward
  else if Qlt_bool Energy_needed_from_battery 0 then
    (* line 186 *)
    o <- getattr _lastPonctualObservation ;;
    v <- getitem o 0 ;;
    size <- getfixed battery_size ;;
    d <- div Energy_needed_from_battery size ;;
    eta <- getfixed battery_eta ;;
    level <- as_float v ;;
    o <- getattr _lastPonctualObservation ;;
    setitem o 0 (Num (py_min 1 (level - d * eta))) ;;;
    ret reward
  else ret reward.

(** Lines 198-207: the punctual observation of the time step. *)
Definition act_observation : M unit :=
  (* line 198 *)
  a <- getattr consumption_norm ;;
  c <- getattr counter ;;
  x <- lift IndexError (np_index a c) ;;
  o <- getattr _lastPonctualObservation ;;
  o1 <- getitem o 1 ;;
  setitem o1 0 (Num x) ;;;
  (* line 199 *)
  a <- getattr production_norm ;;
  c <- getattr counter ;;
  x <- lift IndexError (np_index a c) ;;
  o <- getattr _lastPonctualObservation ;;
  o1 <- getitem o 1 ;;
  setitem o1 1 (Num x) ;;;
  let i := 1%nat in
  (* lines 201-203 *)
  dist_equinox <- getfixed _dist_equinox ;;
  i <- (if (dist_equinox =? 1)%Z then
          let i := (i + 1)%nat in
          c <- getattr counter ;;
          o <- getattr _lastPonctualObservation ;;
          setitem o i (Num (Qabs (inject_Z c / 24 - 365 / 2) / (365 / 2))) ;;;
          ret i
        else ret i) ;;
  (* lines 204-207 *)
  pred <- getfixed _pred ;;
  if (pred =? 1)%Z then
    let i := (i + 1)%nat in
    a <- getattr production_norm ;;
    c <- getattr counter ;;
    c' <- getattr counter ;;
    o <- getattr _lastPonctualObservation ;;
    oi <- getitem o i ;;
    setitem oi 0 (Num (py_sum (np_slice a c (c' + 24)) / 24)) ;;;
    a <- getattr production_norm ;;
    c <- getattr counter ;;
    c' <- getattr counter ;;
    o <- getattr _lastPonctualObservation ;;
    oi <- getitem o i ;;
    setitem oi 1 (Num (py_sum (np_slice a c (c' + 48)) / 48))
  else ret tt.

(** Lines 155-173: the net demand, the flow of the long-term storage the
    action asks for, and the energy the battery has to give; returns
    [Energy_needed_from_battery] and the reward so far. *)
Definition act_hydrogen (action : Z) : M (Q * Q) :=
  (* line 155 *)
  a <- getattr consumption ;;
  c <- getattr counter ;;
  cons <- lift IndexError (np_index a (c - 1)) ;;
  a <- getattr production ;;
  c <- getattr counter ;;
  prod <- lift IndexError (np_index a (c - 1)) ;;
  let true_demand := cons - prod in
  (* lines 157-168: both locals are unbound until a branch assigns them *)
  let locals : option (Q * Q) := None in
  locals <- (if (action =? 0)%Z then
               p <- getfixed hydrogen_max_power ;;
               eta <- getfixed hydrogen_eta ;;
               p' <- getfixed hydrogen_max_power ;;
               ret (Some (- p * eta, - p'))
             else ret locals) ;;
  locals <- (if (action =? 1)%Z then ret (Some (0, 0)) else ret locals) ;;
  locals <- (if (action =? 2)%Z then
               p <- getfixed hydrogen_max_power ;;
               eta <- getfixed hydrogen_eta ;;
               q <- div p eta ;;
               p' <- getfixed hydrogen_max_power ;;
               ret (Some (q, p'))
             else ret locals) ;;
  (* line 170 *)
  bound <- lift UnboundLocalError locals ;;
  let '(true_energy_avail_from_hydrogen, diff_hydrogen) := bound in
  let reward := diff_hydrogen * 0.1 in
  (* line 171 *)
  s <- getattr hydrogen_storage ;;
  setattr (set_hydrogen_storage (s + diff_hydrogen)) ;;;
  (* line 173 *)
  let Energy_needed_from_battery := true_demand + true_energy_avail_from_hydrogen in
  ret (Energy_needed_from_battery, reward).

Definition act (action : Z) : M Q :=
  nr <- act_hydrogen action ;;
  let '(Energy_needed_from_battery, reward) := nr in
  reward <- act_battery Energy_needed_from_battery reward ;;
  act_observation ;;;
  (* line 209 *)
  c <- getattr counter ;;
  setattr (set_counter (c + 1)) ;;;
  (* line 211 *)
  ret reward.

(** ** The accessors (lines 213-220) *)

Definition inputDimensions : M (list (list Z)) :=
  fun w =>
    match _inputDimensions (fixed (self w)) with
    | Some d => (Return d, w)
    | None => (Raise AttributeError, w)
    end.

Definition nActions : M Z := getfixed _nActions.

(** The loop of [copy._deepcopy_list]: the copy of each item of the list,
    made by [copy], is appended to the new list [y]. *)
Fixpoint deepcopy_items
    (copy : val -> gmap loc loc -> gmap loc (list val)
            -> outcome (val * gmap loc loc * gmap loc (list val)))
    (y : loc) (items : list val) (memo : gmap loc loc)
    (h : gmap loc (list val))
  : outcome (val * gmap loc loc * gmap loc (list val)) :=
  match items with
  | [] => Return (Ref y, memo, h)
  | a :: rest =>
      match copy a memo h with
      | Return (a', memo, h) =>
          deepcopy_items copy y rest memo (alter (fun l => l ++ [a']) y h)
      | Raise e => Raise e
      end
  end.

(** [copy.deepcopy]: a number is returned as it is; a list is copied into
    a new list object, item by item, and [memo] maps each list copied so
    far to its copy.  [fuel] bounds the depth of the recursion. *)
Fixpoint deepcopy (fuel : nat) (x : val) (memo : gmap loc loc)
    (h : gmap loc (list val))
  : outcome (val * gmap loc loc * gmap loc (list val)) :=
  match x with
  | Num q => Return (Num q, memo, h)
  | Ref p =>
      match memo !! p with
      | Some y => Return (Ref y, memo, h)
      | None =>
          match fuel with
          | O => Raise RecursionError
          | S n =>
              match h !! p with
              | None => Raise SystemError
              | Some items =>
                  let (y, h) := alloc h [] in
                  let memo := <[p := y]> memo in
                  deepcopy_items (deepcopy n) y items memo h
              end
          end
      end
  end.

(** The interpreter's default recursion limit. *)
Definition recursion_limit : nat := 1000.

Definition observe : M val :=
  o <- getattr _lastPonctualObservation ;;
  fun w =>
    match deepcopy recursion_limit o ∅ (heap w) with
    | Return (y, _, h) => (Return y, {| self := self w; heap := h |})
    | Raise e => (Raise e, w)
    end.

(** * What the methods compute, and the invariants of the object *)

(** The battery level that lines 175-186 leave, from the energy needed,
    the level before, [battery_size] and [battery_eta]. *)
Definition level_after (need level size eta : Q) : Q :=
  if Qlt_bool 0 need then
    if Qlt_bool need (level * size) then level - need / size else 0
  else if Qlt_bool need 0 then py_min 1 (level - need / size * eta)
  else level.

(** The reward after lines 175-186: the loss-of-load penalty is taken off
    when the battery cannot cover the need. *)
Definition reward_after (need level size reward : Q) : Q :=
  if Qlt_bool 0 need then
    if Qlt_bool need (level * size) then reward
    else reward - (need - level * size) * 2
  else reward.

(** Line 203: the distance to the equinox at cursor [c]. *)
Definition seasonal (c : Z) : Q := Qabs (inject_Z c / 24 - 365 / 2) / (365 / 2).

(** The list object [o] holds a punctual observation of the layout the
    flags select, with battery level [x]; [t] is its value. *)
Inductive layout (fx : MyEnv_fixed) (h : gmap loc (list val)) (o : loc) (x : Q)
  : pytree -> Prop :=
  | layout_basic r a b :
      _dist_equinox fx = 0%Z -> _pred fx = 0%Z ->
      h !! o = Some [Num x; Ref r] ->
      h !! r = Some [Num a; Num b] ->
      r ≠ o ->
      layout fx h o x (PList [PNum x; PList [PNum a; PNum b]])
  | layout_seasonal r a b s :
      _dist_equinox fx = 1%Z -> _pred fx = 0%Z ->
      h !! o = Some [Num x; Ref r; Num s] ->
      h !! r = Some [Num a; Num b] ->
      r ≠ o ->
      layout fx h o x (PList [PNum x; PList [PNum a; PNum b]; PNum s])
  | layout_forecast r a b s r2 f1 f2 :
      _dist_equinox fx = 1%Z -> _pred fx = 1%Z ->
      h !! o = Some [Num x; Ref r; Num s; Ref r2] ->
      h !! r = Some [Num a; Num b] ->
      h !! r2 = Some [Num f1; Num f2] ->
      r ≠ o -> r2 ≠ o -> r2 ≠ r ->
      layout fx h o x
        (PList [PNum x; PList [PNum a; PNum b]; PNum s; PList [PNum f1; PNum f2]]).

(** The value of the observation that lines 198-207 leave. *)
Definition observation_after (fx : MyEnv_fixed) (x cn pn : Q) (c : Z)
    (pna : list Q) : pytree :=
  PList (PNum x :: PList [PNum cn; PNum pn]
         :: (if (_dist_equinox fx =? 1)%Z then [PNum (seasonal c)] else [])
         ++ (if (_pred fx =? 1)%Z
             then [PList [PNum (py_sum (np_slice pna c (c + 24)) / 24);
                          PNum (py_sum (np_slice pna c (c + 48)) / 48)]]
             else [])).

(** An observation with its first slot, the battery level, replaced. *)
Definition with_level (x : Q) (t : pytree) : pytree :=
  match t with
  | PList (_ :: rest) => PList (PNum x :: rest)
  | _ => t
  end.

(** The energy that lines 157-168 take from ([< 0]) or send to ([> 0])
    the long-term storage, as seen by the battery. *)
Definition true_energy_avail_from_hydrogen (fx : MyEnv_fixed) (action : Z) : Q :=
  if (action =? 0)%Z then - hydrogen_max_power fx * hydrogen_eta fx
  else if (action =? 1)%Z then 0
  else hydrogen_max_power fx / hydrogen_eta fx.

(** The change of the long-term level that lines 157-168 choose. *)
Definition diff_hydrogen (fx : MyEnv_fixed) (action : Z) : Q :=
  if (action =? 0)%Z then - hydrogen_max_power fx
  else if (action =? 1)%Z then 0
  else hydrogen_max_power fx.

(** What a call of [act] needs to go through: the attributes of [reset],
    and the series long enough at the cursor. *)
Record in_range (e : MyEnv) (c : Z) (cons prod cn pn : Q) (pna : list Q) (s : Q)
  : Prop := {
  range_counter : counter e = Some c;
  range_storage : hydrogen_storage e = Some s;
  range_cons : exists a, consumption e = Some a /\ np_index a (c - 1) = Some cons;
  range_prod : exists a, production e = Some a /\ np_index a (c - 1) = Some prod;
  range_cn : exists a, consumption_norm e = Some a /\ np_index a c = Some cn;
  range_pna : production_norm e = Some pna;
  range_pn : np_index pna c = Some pn
}.

(** The battery level and the observation the object holds. *)
Definition battery_level (w : world) : option Q :=
  match _lastPonctualObservation (self w) with
  | Some (Ref o) =>
      match heap w !! o with
      | Some (Num x :: _) => Some x
      | _ => None
      end
  | _ => None
  end.

Definition observation (w : world) : option pytree :=
  match _lastPonctualObservation (self w) with
  | Some o => tree_of 2 (heap w) o
  | None => None
  end.

(** The three pairs of flags the constructor has a layout for. *)
Definition supported (fx : MyEnv_fixed) : Prop :=
  (_dist_equinox fx = 1%Z /\ _pred fx = 1%Z)
  \/ (_dist_equinox fx = 1%Z /\ _pred fx = 0%Z)
  \/ (_dist_equinox fx = 0%Z /\ _pred fx = 0%Z).

(** The value of the observation that [__init__] ([x = 0]) and [reset]
    ([x = 1]) store. *)
Definition observation_initial (fx : MyEnv_fixed) (x : Q) : pytree :=
  PList (PNum x :: PList [PNum 0; PNum 0]
         :: (if (_dist_equinox fx =? 1)%Z then [PNum 0] else [])
         ++ (if (_pred fx =? 1)%Z then [PList [PNum 0; PNum 0]] else [])).

(** The value [reset] returns. *)
Definition observation_returned (fx : MyEnv_fixed) : pytree :=
  PList (PNum 0 :: PList (replicate 12 (PList [PNum 0; PNum 0]))
         :: (if (_dist_equinox fx =? 1)%Z then [PNum 0] else [])
         ++ (if (_pred fx =? 1)%Z then [PList [PNum 0; PNum 0]] else [])).

(** The attributes after lines 108-125. *)
Definition bind_series (mode : pyint) (e : MyEnv) : MyEnv :=
  let fx := fixed e in
  if py_eq_int mode (-1) then
    set_consumption (consumption_train fx)
      (set_consumption_norm (consumption_train_norm fx)
         (set_production (production_train fx)
            (set_production_norm (production_train_norm fx) e)))
  else if py_eq_int mode 0 then
    set_consumption (consumption_valid fx)
      (set_consumption_norm (consumption_valid_norm fx)
         (set_production (production_valid fx)
            (set_production_norm (production_valid_norm fx) e)))
  else
    set_consumption (consumption_test fx)
      (set_consumption_norm (consumption_test_norm fx)
         (set_production (production_test fx)
            (set_production_norm (production_test_norm fx) e))).

(** What [__init__] leaves, whatever the flags. *)
Record constructed (d p : Z) (w : world) : Prop := {
  built_dist : _dist_equinox (fixed (self w)) = d;
  built_pred : _pred (fixed (self w)) = p;
  built_nActions : _nActions (fixed (self w)) = 3%Z;
  built_size : battery_size (fixed (self w)) == 15;
  built_eta : battery_eta (fixed (self w)) == 0.9;
  built_power : hydrogen_max_power (fixed (self w)) == 1.1;
  built_hydrogen_eta : hydrogen_eta (fixed (self w)) == 0.65;
  built_dims :
    _inputDimensions (fixed (self w))
    = if ((d =? 1) && (p =? 1))%Z then Some [[1]; [12; 2]; [1]; [1; 2]]%Z
      else if ((d =? 1) && (p =? 0))%Z then Some [[1]; [12; 2]; [1]]%Z
      else if ((d =? 0) && (p =? 0))%Z then Some [[1]; [12; 2]]%Z
      else None;
  built_obs :
    if ((d =? 1) && (p =? 1) || (d =? 1) && (p =? 0) || (d =? 0) && (p =? 0))%Z
    then exists o, _lastPonctualObservation (self w) = Some (Ref o)
                   /\ layout (fixed (self w)) (heap w) o 0
                        (observation_initial (fixed (self w)) 0)
    else _lastPonctualObservation (self w) = None
}.

(** The object between two calls, once [reset] has run: the observation
    record is in place and the battery level is a fraction of the size. *)
Record ready (w : world) (x : Q) : Prop := {
  ready_obs :
    exists o t, _lastPonctualObservation (self w) = Some (Ref o)
                /\ layout (fixed (self w)) (heap w) o x t;
  ready_flags : supported (fixed (self w));
  ready_size : 0 < battery_size (fixed (self w));
  ready_eta : 0 <= battery_eta (fixed (self w));
  ready_level : 0 <= x <= 1
}.

(** The worlds an episode driver reaches from the constructed object
    [w0]: a [reset], then calls of [act] (with any action, whether they
    return or raise), of [observe] and of [reset]. *)
Inductive reachable (w0 : world) : world -> Prop :=
  | reach_reset mode : reachable w0 (snd (reset mode w0))
  | reach_act w action : reachable w0 w -> reachable w0 (snd (act action w))
  | reach_observe w : reachable w0 w -> reachable w0 (snd (observe w))
  | reach_reset_again w mode : reachable w0 w -> reachable w0 (snd (reset mode w)).

(** A driver that steps through a list of actions and collects the
    rewards. *)
Fixpoint run_acts (actions : list Z) : M (list Q) :=
  match actions with
  | [] => ret []
  | a :: rest =>
      r <- act a ;;
      rs <- run_acts rest ;;
      ret (r :: rs)
  end.

(** The sum of a list of rationals. *)
Definition Qsum (l : list Q) : Q := fold_right Qplus 0 l.

(** Every number of a value is 0. *)
Fixpoint all_zero (t : pytree) : bool :=
  match t with
  | PNum q => Qeq_bool q 0
  | PList items => forallb all_zero items
  end.

(** Calls that leave the attributes of [self] as they are. *)
Definition keeps_self {A} (m : M A) : Prop :=
  forall w, self (snd (m w)) = self w.

(** The four series an episode reads. *)
Definition series_of (e : MyEnv)
  : option (list Q) * option (list Q) * option (list Q) * option (list Q) :=
  (production_norm e, production e, consumption_norm e, consumption e).


(** ** A small data set and the worlds it gives *)

Definition demo_files : data_files :=
  {| cons_train_npy := [0.5; 1; 0.25; 0.75];
     cons_test_npy := [1; 1; 1];
     prod_train_npy := [0; 0.1; 0.2; 0.3];
     prod_test_npy := [0; 0; 0] |}.

Definition no_object : world :=
  {| self :=
       {| fixed :=
            {| _dist_equinox := 0; _pred := 0; _nActions := 0;
               _inputDimensions := None;
               consumption_train_norm := []; consumption_valid_norm := [];
               consumption_test_norm := []; consumption_train := [];
               consumption_valid := []; consumption_test := [];
               min_consumption := 0; max_consumption := 0;
               production_train_norm := []; production_valid_norm := [];
               production_test_norm := []; production_train := [];
               production_valid := []; production_test := [];
               min_production := 0; max_production := 0;
               battery_size := 0; battery_eta := 0;
               hydrogen_max_power := 0; hydrogen_eta := 0 |};
          _lastPonctualObservation := None; counter := None;
          hydrogen_storage := None; production_norm := None;
          production := None; consumption_norm := None; consumption := None |};
     heap := ∅ |}.

Definition returned (o : outcome world) : world :=
  match o with
  | Return w => w
  | Raise _ => no_object
  end.

(** [MyEnv(rng)] on the small data set, in an empty store. *)
Definition demo_object : world := returned (__init__ demo_files ∅).

(** The same with both optional observations switched on. *)
Definition demo_object_full : world := returned (init_with 1 1 demo_files ∅).

(** After [reset(-1)]. *)
Definition demo_ready : world := snd (reset (PInt (-1)) demo_object).

Definition demo_ready_full : world := snd (reset (PInt (-1)) demo_object_full).

(** A data set longer than a year, so that the validation split is not
    empty. *)
Definition year_files : data_files :=
  {| cons_train_npy := repeat 0.5 (365 * 24) ++ [0.25; 0.75];
     cons_test_npy := [1; 1; 1];
     prod_train_npy := repeat 0.1 (365 * 24) ++ [0.2; 0.3];
     prod_test_npy := [0; 0; 0] |}.

Definition year_object : world := returned (__init__ year_files ∅).

(** ** Further worlds on the small data set *)

(** Two hold steps into the training episode: a surplus comes next. *)
Definition demo_surplus : world := snd (run_acts [1; 1]%Z demo_ready).

(** Three steps into the training episode of four hours: its last hour. *)
Definition demo_last : world := snd (run_acts [1; 1; 1]%Z demo_ready).

(** A validation episode on the small data set, whose validation split
    is empty. *)
Definition demo_validation : world := snd (reset (PInt 0) demo_object).

(** A consumption above what the full battery holds. *)
Definition heavy_files : data_files :=
  {| cons_train_npy := [10; 10];
     cons_test_npy := [];
     prod_train_npy := [0; 0];
     prod_test_npy := [] |}.

Definition heavy_ready : world :=
  snd (reset (PInt (-1)) (returned (__init__ heavy_files ∅))).

(** * Running a call step by step *)

Section Run.
Context {A B : Type}.

Lemma run_bind (m : M A) (k : A -> M B) w a w' :
  m w = (Return a, w') -> bind m k w = k a w'.
Proof. intros H. unfold bind. now rewrite H. Qed.

Lemma run_bind_raise (m : M A) (k : A -> M B) w e w' :
  m w = (Raise e, w') -> bind m k w = (Raise e, w').
Proof. intros H. unfold bind. now rewrite H. Qed.

Lemma run_getattr (f : MyEnv -> option A) w a :
  f (self w) = Some a -> getattr f w = (Return a, w).
Proof. intros H. unfold getattr. now rewrite H. Qed.

Lemma run_getattr_unset (f : MyEnv -> option A) w :
  f (self w) = None -> getattr f w = (Raise AttributeError, w).
Proof. intros H. unfold getattr. now rewrite H. Qed.
End Run.

Lemma bind_assoc {A B C} (m : M A) (k : A -> M B) (k' : B -> M C) w :
  bind (bind m k) k' w = bind m (fun a => bind (k a) k') w.
Proof. unfold bind. destruct (m w) as [[a|e] w']; reflexivity. Qed.

Lemma run_getitem w p items i x :
  heap w !! p = Some items -> items !! i = Some x ->
  getitem (Ref p) i w = (Return x, w).
Proof. intros H1 H2. cbn. now rewrite H1, H2. Qed.

Lemma run_setitem w p items i x :
  heap w !! p = Some items -> (i < length items)%nat ->
  setitem (Ref p) i x w
  = (Return tt, {| self := self w; heap := <[p := <[i := x]> items]> (heap w) |}).
Proof.
  intros H1 H2. cbn. rewrite H1. destruct (decide (i < length items)%nat); [done | lia].
Qed.

Lemma run_div x y w : ~ y == 0 -> div x y w = (Return (x / y), w).
Proof.
  intros H. unfold div. destruct (Qeq_bool y 0) eqn:E; [|done].
  apply Qeq_bool_iff in E. contradiction.
Qed.

Lemma Qlt_bool_iff x y : Qlt_bool x y = true <-> x < y.
Proof.
  unfold Qlt_bool. rewrite negb_true_iff, <- not_true_iff_false, Qle_bool_iff.
  split; [apply Qnot_le_lt | apply Qlt_not_le].
Qed.

Lemma Qlt_bool_false x y : Qlt_bool x y = false <-> y <= x.
Proof.
  unfold Qlt_bool. rewrite negb_false_iff, Qle_bool_iff. tauto.
Qed.

Lemma run_getfixed {A} (f : MyEnv_fixed -> A) w :
  getfixed f w = (Return (f (fixed (self w))), w).
Proof. reflexivity. Qed.

Lemma run_ret {A} (a : A) w : ret a w = (Return a, w).
Proof. reflexivity. Qed.

Lemma run_setattr f w :
  setattr f w = (Return tt, {| self := f (self w); heap := heap w |}).
Proof. reflexivity. Qed.

(** ** The observation record *)

Lemma layout_tree fx h o x t :
  layout fx h o x t -> tree_of 2 h (Ref o) = Some t.
Proof.
  destruct 1; cbn;
    repeat match goal with H : _ !! _ = Some _ |- _ => rewrite H; clear H end;
    reflexivity.
Qed.

Lemma layout_head fx h o x t :
  layout fx h o x t -> exists items, h !! o = Some (Num x :: items).
Proof. destruct 1; eauto. Qed.

(** Looks a location up in a store written as a chain of updates. *)
Ltac lookup_solve :=
  cbn [heap self fixed];
  repeat first [rewrite lookup_insert_eq | rewrite lookup_insert_ne by (first [done | apply not_eq_sym; done])];
  first [eassumption | reflexivity].

(** Runs the first statement of a call whose outcome the context settles. *)
Ltac run_step :=
  first
    [ rewrite run_ret
    | rewrite bind_assoc
    | erewrite run_bind by (apply run_getfixed)
    | erewrite run_bind by (apply run_ret)
    | erewrite run_bind by (apply run_setattr)
    | erewrite run_bind by (apply run_getattr; cbn; eassumption)
    | erewrite run_bind by (eapply run_getitem; [lookup_solve | reflexivity])
    | erewrite run_bind by (apply run_div; cbn; assumption)
    | erewrite run_bind by (eapply run_setitem; [lookup_solve | cbn; lia])
    | erewrite run_setitem by (first [lookup_solve | cbn; lia])
    | erewrite run_bind by (cbn; match goal with H : ?o = Some _ |- lift _ ?o _ = _ => rewrite H; reflexivity end) ];
  cbn [as_float self heap fixed].

Lemma act_observation_run e h o x t cna pna c cn pn :
  _lastPonctualObservation e = Some (Ref o) ->
  layout (fixed e) h o x t ->
  consumption_norm e = Some cna ->
  production_norm e = Some pna ->
  counter e = Some c ->
  np_index cna c = Some cn ->
  np_index pna c = Some pn ->
  exists h',
    act_observation {| self := e; heap := h |}
    = (Return tt, {| self := e; heap := h' |})
    /\ layout (fixed e) h' o x (observation_after (fixed e) x cn pn c pna).
Proof.
  intros Hattr Hlay Hcna Hpna Hc Hcn Hpn.
  unfold act_observation, observation_after.
  destruct Hlay as [r a b Hd Hp Ho Hr Hne | r a b s Hd Hp Ho Hr Hne
                   | r a b s r2 f1 f2 Hd Hp Ho Hr Hr2 Hne Hne2 Hne3];
    repeat run_step; rewrite Hd; cbn [Z.eqb Pos.eqb]; repeat run_step;
    rewrite Hp; cbn [Z.eqb Pos.eqb Nat.add]; repeat run_step;
    (eexists; split; [reflexivity|]); cbn [app].
  - eapply layout_basic; [eassumption | eassumption | lookup_solve | lookup_solve | eassumption].
  - eapply layout_seasonal; [eassumption | eassumption | lookup_solve | lookup_solve | eassumption].
  - eapply layout_forecast;
      [eassumption | eassumption | lookup_solve | lookup_solve | lookup_solve
      | eassumption | eassumption | eassumption].
Qed.

Lemma layout_set_level fx h o x t x' items :
  layout fx h o x t ->
  h !! o = Some (Num x :: items) ->
  layout fx (<[o := Num x' :: items]> h) o x' (with_level x' t).
Proof.
  intros Hlay Ho.
  destruct Hlay as [r a b Hd Hp Ho' Hr Hne | r a b s Hd Hp Ho' Hr Hne
                   | r a b s r2 f1 f2 Hd Hp Ho' Hr Hr2 Hne Hne2 Hne3];
    rewrite Ho' in Ho; injection Ho as <-; cbn [with_level].
  - eapply layout_basic; [eassumption | eassumption | lookup_solve | lookup_solve | eassumption].
  - eapply layout_seasonal; [eassumption | eassumption | lookup_solve | lookup_solve | eassumption].
  - eapply layout_forecast;
      [eassumption | eassumption | lookup_solve | lookup_solve | lookup_solve
      | eassumption | eassumption | eassumption].
Qed.

Lemma layout_with_level fx h o x t : layout fx h o x t -> with_level x t = t.
Proof. destruct 1; reflexivity. Qed.

Lemma act_battery_run e h o x t need reward :
  _lastPonctualObservation e = Some (Ref o) ->
  layout (fixed e) h o x t ->
  ~ battery_size (fixed e) == 0 ->
  let x' := level_after need x (battery_size (fixed e)) (battery_eta (fixed e)) in
  exists h',
    act_battery need reward {| self := e; heap := h |}
    = (Return (reward_after need x (battery_size (fixed e)) reward),
       {| self := e; heap := h' |})
    /\ layout (fixed e) h' o x' (with_level x' t).
Proof.
  intros Hattr Hlay Hsize x'.
  destruct (layout_head _ _ _ _ _ Hlay) as [items Ho].
  subst x'. unfold act_battery, level_after, reward_after.
  destruct (Qlt_bool 0 need) eqn:Hpos.
  - do 4 run_step.
    destruct (Qlt_bool need (x * battery_size (fixed e))) eqn:Hlt;
      repeat run_step;
      (eexists; split; [reflexivity|]);
      (eapply layout_set_level; eassumption).
  - destruct (Qlt_bool need 0) eqn:Hneg.
    + repeat run_step.
      eexists; split; [reflexivity|].
      eapply layout_set_level; eassumption.
    + exists h. split; [reflexivity|].
      now rewrite (layout_with_level _ _ _ _ _ Hlay).
Qed.

Lemma act_run e h o x t action c cons prod cn pn pna s :
  _lastPonctualObservation e = Some (Ref o) ->
  layout (fixed e) h o x t ->
  in_range e c cons prod cn pn pna s ->
  ~ battery_size (fixed e) == 0 ->
  ~ hydrogen_eta (fixed e) == 0 ->
  (action = 0 \/ action = 1 \/ action = 2)%Z ->
  let need := cons - prod + true_energy_avail_from_hydrogen (fixed e) action in
  let x' := level_after need x (battery_size (fixed e)) (battery_eta (fixed e)) in
  exists h',
    act action {| self := e; heap := h |}
    = (Return (reward_after need x (battery_size (fixed e))
                 (diff_hydrogen (fixed e) action * 0.1)),
       {| self := set_counter (c + 1)
                    (set_hydrogen_storage (s + diff_hydrogen (fixed e) action) e);
          heap := h' |})
    /\ layout (fixed e) h' o x' (observation_after (fixed e) x' cn pn c pna).
Proof.
  intros Hattr Hlay [Hc Hs (ca & Hca & Hcons) (pa & Hpa & Hprod)
                       (cna & Hcna & Hcn) Hpna Hpn] Hsize Heta Haction need x'.
  pose proof (act_battery_run
                (set_hydrogen_storage (s + diff_hydrogen (fixed e) action) e)
                h o x t need (diff_hydrogen (fixed e) action * 0.1)
                Hattr Hlay Hsize) as (h1 & Hbat & Hlay1).
  pose proof (act_observation_run
                (set_hydrogen_storage (s + diff_hydrogen (fixed e) action) e)
                h1 o _ _ cna pna c cn pn Hattr Hlay1 Hcna Hpna Hc Hcn Hpn)
    as (h2 & Hobs & Hlay2).
  exists h2. split; [|exact Hlay2].
  unfold act, act_hydrogen.
  do 6 run_step.
  subst need x'. unfold true_energy_avail_from_hydrogen, diff_hydrogen in *.
  destruct Haction as [-> | [-> | ->]]; cbn [Z.eqb Pos.eqb] in *;
    repeat run_step;
    rewrite (run_bind _ _ _ _ _ Hbat);
    rewrite (run_bind _ _ _ _ _ Hobs);
    repeat run_step; reflexivity.
Qed.

(** * Properties of [act] *)

Lemma layout_battery_level w o x t :
  _lastPonctualObservation (self w) = Some (Ref o) ->
  layout (fixed (self w)) (heap w) o x t ->
  battery_level w = Some x.
Proof.
  intros Hattr Hlay. unfold battery_level. rewrite Hattr.
  destruct (layout_head _ _ _ _ _ Hlay) as [items ->]. reflexivity.
Qed.

Lemma layout_observation w o x t :
  _lastPonctualObservation (self w) = Some (Ref o) ->
  layout (fixed (self w)) (heap w) o x t ->
  observation w = Some t.
Proof.
  intros Hattr Hlay. unfold observation. rewrite Hattr.
  now apply (layout_tree _ _ _ _ _ Hlay).
Qed.

Lemma reward_after_unmet need x size reward :
  0 <= x * size ->
  reward_after need x size reward == reward - 2 * Qmax 0 (need - x * size).
Proof.
  intros Hx. unfold reward_after.
  destruct (Qlt_bool 0 need) eqn:Hpos.
  - destruct (Qlt_bool need (x * size)) eqn:Hlt.
    + apply Qlt_bool_iff in Hlt.
      rewrite Q.max_l by lra. lra.
    + apply Qlt_bool_false in Hlt.
      rewrite Q.max_r by lra. lra.
  - apply Qlt_bool_false in Hpos.
    rewrite Q.max_l by lra. lra.
Qed.

(** C1. For a valid action (0, 1 or 2) at an in-range cursor, [act] takes
    the energy of the long-term storage to be [-P*eta], [0] or [P/eta] and
    the change of its level to be [-P], [0] or [P]; it adds that change to
    [hydrogen_storage]; the battery level follows from the net need
    [consumption - production + energy]; and the reward returned is the
    change times 0.1, minus twice the part of the net need that exceeds
    [level * battery_size].  With [P = 1.1], action 0 and a battery that
    holds the net need, the reward is [-0.11]. *)
Theorem act_long_term_and_reward
    (w : world) (action : Z) (o : loc) (x : Q) (t : pytree)
    (c : Z) (cons prod cn pn : Q) (pna : list Q) (s : Q) :
  _lastPonctualObservation (self w) = Some (Ref o) ->
  layout (fixed (self w)) (heap w) o x t ->
  in_range (self w) c cons prod cn pn pna s ->
  0 <= x ->
  0 < battery_size (fixed (self w)) ->
  ~ hydrogen_eta (fixed (self w)) == 0 ->
  (action = 0 \/ action = 1 \/ action = 2)%Z ->
  let P := hydrogen_max_power (fixed (self w)) in
  let eta := hydrogen_eta (fixed (self w)) in
  let size := battery_size (fixed (self w)) in
  let energyFromLongTerm := true_energy_avail_from_hydrogen (fixed (self w)) action in
  let longTermDelta := diff_hydrogen (fixed (self w)) action in
  let netNeed := cons - prod + energyFromLongTerm in
  (action = 0%Z -> energyFromLongTerm = - P * eta /\ longTermDelta = - P) /\
  (action = 1%Z -> energyFromLongTerm = 0 /\ longTermDelta = 0) /\
  (action = 2%Z -> energyFromLongTerm = P / eta /\ longTermDelta = P) /\
  exists reward w',
    act action w = (Return reward, w')
    /\ hydrogen_storage (self w') = Some (s + longTermDelta)
    /\ battery_level w'
       = Some (level_after netNeed x size (battery_eta (fixed (self w))))
    /\ reward == longTermDelta * 0.1 - 2 * Qmax 0 (netNeed - x * size)
    /\ (action = 0%Z -> P == 1.1 -> netNeed <= x * size -> reward == - 0.11).
Proof.
  intros Hattr Hlay Hrange Hx Hsize Heta Haction.
  assert (Hsize0 : ~ battery_size (fixed (self w)) == 0) by lra.
  assert (Hxs : 0 <= x * battery_size (fixed (self w)))
    by (apply Qmult_le_0_compat; lra).
  intros P eta size energy delta need.
  split; [intros ->; split; reflexivity|].
  split; [intros ->; split; reflexivity|].
  split; [intros ->; split; reflexivity|].
  destruct w as [e h]. cbn [self heap] in *.
  destruct (act_run e h o x t action c cons prod cn pn pna s
              Hattr Hlay Hrange Hsize0 Heta Haction) as (h' & Hrun & Hlay').
  fold energy delta need size in Hrun, Hlay'.
  eexists _, _. split; [exact Hrun|].
  split; [reflexivity|].
  split; [eapply layout_battery_level; [exact Hattr | exact Hlay']|].
  split; [now apply reward_after_unmet|].
  intros -> HP Hneed.
  rewrite reward_after_unmet by assumption.
  rewrite Q.max_l by lra.
  subst delta P. unfold diff_hydrogen in *. cbn [Z.eqb self] in *. lra.
Qed.

Lemma level_after_drain need x size eta :
  0 < size -> 0 < need -> need <= x * size ->
  level_after need x size eta == x - need / size.
Proof.
  intros Hsize Hpos Hle. unfold level_after.
  assert (Hq : need / size * size == need) by (field; lra).
  apply Qlt_bool_iff in Hpos as Hb. rewrite Hb.
  destruct (Qlt_bool need (x * size)) eqn:Hlt; [reflexivity|].
  apply Qlt_bool_false in Hlt.
  assert (Heq : need == x * size) by lra.
  rewrite Heq. field. lra.
Qed.

Lemma reward_after_covered need x size reward :
  need <= x * size -> reward_after need x size reward == reward.
Proof.
  intros Hle. unfold reward_after.
  destruct (Qlt_bool 0 need); [|reflexivity].
  destruct (Qlt_bool need (x * size)) eqn:Hlt; [reflexivity|].
  apply Qlt_bool_false in Hlt. lra.
Qed.

(** C4. When the net need is positive and the battery holds at least as
    much ([level * battery_size >= need > 0]), [act] lowers the battery
    level by [need / battery_size] and charges no penalty: the reward is the
    change of the long-term level times 0.1.  When the need equals what the
    battery holds, the level after the step is 0. *)
Theorem act_battery_covers_need
    (w : world) (action : Z) (o : loc) (x : Q) (t : pytree)
    (c : Z) (cons prod cn pn : Q) (pna : list Q) (s : Q) :
  _lastPonctualObservation (self w) = Some (Ref o) ->
  layout (fixed (self w)) (heap w) o x t ->
  in_range (self w) c cons prod cn pn pna s ->
  0 < battery_size (fixed (self w)) ->
  ~ hydrogen_eta (fixed (self w)) == 0 ->
  (action = 0 \/ action = 1 \/ action = 2)%Z ->
  let size := battery_size (fixed (self w)) in
  let longTermDelta := diff_hydrogen (fixed (self w)) action in
  let netNeed :=
    cons - prod + true_energy_avail_from_hydrogen (fixed (self w)) action in
  0 < netNeed ->
  netNeed <= x * size ->
  exists reward w' x',
    act action w = (Return reward, w')
    /\ battery_level w' = Some x'
    /\ x' == x - netNeed / size
    /\ reward == longTermDelta * 0.1
    /\ (netNeed == x * size -> x' == 0).
Proof.
  intros Hattr Hlay Hrange Hsize Heta Haction.
  assert (Hsize0 : ~ battery_size (fixed (self w)) == 0) by lra.
  intros size delta need Hpos Hle.
  destruct w as [e h]. cbn [self heap] in *.
  destruct (act_run e h o x t action c cons prod cn pn pna s
              Hattr Hlay Hrange Hsize0 Heta Haction) as (h' & Hrun & Hlay').
  fold delta need size in Hrun, Hlay'.
  eexists _, _, _. split; [exact Hrun|].
  split; [eapply layout_battery_level; [exact Hattr | exact Hlay']|].
  assert (Hdrain := level_after_drain need x size (battery_eta (fixed e))
                      Hsize Hpos Hle).
  split; [exact Hdrain|].
  split; [now apply reward_after_covered|].
  intros Heq. rewrite Hdrain, Heq. subst size. cbn [self] in *. field. lra.
Qed.




(** * Properties of [reset] *)

Lemma new_list_run items w :
  exists p,
    new_list items w
    = (Return (Ref p), {| self := self w; heap := <[p := items]> (heap w) |})
    /\ heap w !! p = None.
Proof.
  exists (fresh (dom (heap w))). split; [reflexivity|].
  apply not_elem_of_dom, is_fresh.
Qed.

Lemma layout_weaken fx h h' o x t :
  layout fx h o x t -> h ⊆ h' -> layout fx h' o x t.
Proof.
  intros Hlay Hsub.
  destruct Hlay as [r a b Hd Hp Ho Hr Hne | r a b s Hd Hp Ho Hr Hne
                   | r a b s r2 f1 f2 Hd Hp Ho Hr Hr2 Hne Hne2 Hne3].
  - eapply layout_basic; eauto using lookup_weaken.
  - eapply layout_seasonal; eauto using lookup_weaken.
  - eapply layout_forecast; eauto using lookup_weaken.
Qed.

Lemma tree_of_ref n h p items :
  h !! p = Some items ->
  tree_of (S n) h (Ref p) = ts ← mapM (tree_of n h) items; Some (PList ts).
Proof.
  intros Hp. cbn [tree_of]. rewrite Hp. reflexivity.
Qed.

Lemma zero_rows_run n e h :
  exists rows h',
    zero_rows n {| self := e; heap := h |} = (Return rows, {| self := e; heap := h' |})
    /\ h ⊆ h'
    /\ mapM (tree_of 1 h') rows = Some (replicate n (PList [PNum 0; PNum 0]))
    /\ Forall (fun v => exists p, v = Ref p /\ h !! p = None) rows.
Proof.
  revert h. induction n as [|n IH]; intros h.
  - exists [], h. repeat split; [reflexivity | constructor].
  - cbn [zero_rows].
    destruct (new_list_run [Num 0; Num 0] {| self := e; heap := h |})
      as (p & Hnew & Hfresh). cbn [self heap] in *.
    rewrite (run_bind _ _ _ _ _ Hnew).
    destruct (IH (<[p := [Num 0; Num 0]]> h)) as (rows & h' & Hrun & Hsub & Htree & Hall).
    rewrite (run_bind _ _ _ _ _ Hrun).
    exists (Ref p :: rows), h'. split; [reflexivity|].
    assert (Hp : h' !! p = Some [Num 0; Num 0]).
    { eapply lookup_weaken; [|exact Hsub]. apply lookup_insert_eq. }
    split; [|split].
    + etrans; [|exact Hsub]. now apply insert_subseteq.
    + change (mapM (tree_of 1 h') (Ref p :: rows))
        with (y ← tree_of 1 h' (Ref p); k ← mapM (tree_of 1 h') rows; Some (y :: k)).
      rewrite (tree_of_ref 0 h' p _ Hp), Htree. reflexivity.
    + constructor; [eauto|].
      eapply Forall_impl; [exact Hall|].
      intros v (q & -> & Hq). exists q. split; [reflexivity|].
      apply lookup_insert_None in Hq. tauto.
Qed.

Lemma tree_of_weaken n h h' v t :
  h ⊆ h' -> tree_of n h v = Some t -> tree_of n h' v = Some t.
Proof.
  intros Hsub. revert v t. induction n as [|n IH]; intros [q|p] t Ht; try done.
  destruct (h !! p) as [items|] eqn:Hp; [|cbn in Ht; now rewrite Hp in Ht].
  rewrite (tree_of_ref n h p items Hp) in Ht.
  rewrite (tree_of_ref n h' p items (lookup_weaken _ _ _ _ Hp Hsub)).
  destruct (mapM (tree_of n h) items) as [ts|] eqn:Hts; [|done].
  apply mapM_Some in Hts.
  assert (Hts' : mapM (tree_of n h') items = Some ts).
  { apply mapM_Some. eapply Forall2_impl; [exact Hts|]. cbn. eauto. }
  now rewrite Hts'.
Qed.

Lemma mapM_tree_of_weaken n h h' vs ts :
  h ⊆ h' -> mapM (tree_of n h) vs = Some ts -> mapM (tree_of n h') vs = Some ts.
Proof.
  intros Hsub Hts. apply mapM_Some. apply mapM_Some in Hts.
  eapply Forall2_impl; [exact Hts|]. cbn. eauto using tree_of_weaken.
Qed.

(** Runs a list display: names the new location and its freshness. *)
Ltac alloc_step p Hf :=
  repeat rewrite bind_assoc;
  match goal with
  | |- context [bind (new_list ?items) _ ?w] =>
      let Hnew := fresh "Hnew" in
      destruct (new_list_run items w) as (p & Hnew & Hf);
      rewrite (run_bind _ _ _ _ _ Hnew); clear Hnew; cbn [self heap] in Hf |- *
  end.

(** Runs a read or a write of an attribute. *)
Ltac attr_step :=
  first [ rewrite bind_assoc
        | erewrite run_bind by (apply run_getfixed)
        | erewrite run_bind by (apply run_setattr)
        | erewrite run_bind by (apply run_ret) ];
  cbn [self heap fixed].

Lemma subseteq_insert_fresh (h h' : gmap loc (list val)) p x :
  h ⊆ h' -> h' !! p = None -> h ⊆ <[p := x]> h'.
Proof. intros Hsub Hp. etrans; [exact Hsub|]. now apply insert_subseteq. Qed.

(** Spells out what the freshness of each new location says. *)
Ltac fresh_facts :=
  repeat match goal with
    | H : <[_ := _]> _ !! _ = None |- _ =>
        let H' := fresh H in
        pose proof H as H'; apply lookup_insert_None in H' as [? ?];
        revert H
    end; intros.

Ltac subseteq_solve :=
  repeat (apply subseteq_insert_fresh; [|eassumption]); reflexivity.

Lemma reset_observation_run e h :
  supported (fixed e) ->
  exists o h',
    reset_observation {| self := e; heap := h |}
    = (Return tt, {| self := set__lastPonctualObservation (Ref o) e; heap := h' |})
    /\ layout (fixed e) h' o 1 (observation_initial (fixed e) 1)
    /\ h ⊆ h' /\ h !! o = None.
Proof.
  intros Hsup. unfold reset_observation, observation_initial.
  do 2 attr_step.
  destruct Hsup as [[Hd Hp] | [[Hd Hp] | [Hd Hp]]]; rewrite Hd, Hp;
    cbn [Z.eqb Pos.eqb andb app].
  - alloc_step a Ha. alloc_step b Hb. alloc_step o Ho. fresh_facts.
    exists o. eexists. split; [reflexivity|].
    split; [|split; [subseteq_solve | assumption]].
    eapply layout_forecast;
      [eassumption | eassumption | lookup_solve | lookup_solve | lookup_solve
      | done | done | done].
  - alloc_step a Ha. alloc_step o Ho. fresh_facts.
    exists o. eexists. split; [reflexivity|].
    split; [|split; [subseteq_solve | assumption]].
    eapply layout_seasonal;
      [eassumption | eassumption | lookup_solve | lookup_solve | done].
  - alloc_step a Ha. alloc_step o Ho. fresh_facts.
    exists o. eexists. split; [reflexivity|].
    split; [|split; [subseteq_solve | assumption]].
    eapply layout_basic;
      [eassumption | eassumption | lookup_solve | lookup_solve | done].
Qed.

Lemma mapM_cons_num n h q vs :
  mapM (tree_of n h) (Num q :: vs)
  = ts ← mapM (tree_of n h) vs; Some (PNum q :: ts).
Proof. destruct n; reflexivity. Qed.

Lemma mapM_cons_ref n h p vs :
  mapM (tree_of n h) (Ref p :: vs)
  = t ← tree_of n h (Ref p); ts ← mapM (tree_of n h) vs; Some (t :: ts).
Proof. reflexivity. Qed.

Lemma reset_series_run mode e h :
  reset_series mode {| self := e; heap := h |}
  = (Return tt, {| self := bind_series mode e; heap := h |}).
Proof.
  unfold reset_series, bind_series.
  destruct (py_eq_int mode (-1)); [reflexivity|].
  destruct (py_eq_int mode 0); reflexivity.
Qed.

Lemma reset_return_run e h :
  supported (fixed e) ->
  exists ret h',
    reset_return {| self := e; heap := h |}
    = (Return (Ref ret), {| self := e; heap := h' |})
    /\ tree_of 3 h' (Ref ret) = Some (observation_returned (fixed e))
    /\ h ⊆ h' /\ h !! ret = None.
Proof.
  intros Hsup. unfold reset_return, observation_returned.
  do 2 attr_step.
  destruct (zero_rows_run 12 e h) as (rows & h1 & Hrows & Hsub & Htree & _).
  destruct Hsup as [[Hd Hp] | [[Hd Hp] | [Hd Hp]]]; rewrite Hd, Hp;
    cbn [Z.eqb Pos.eqb andb app];
    rewrite (run_bind _ _ _ _ _ Hrows).
  - alloc_step hist Hhist. alloc_step f Hf.
    destruct (new_list_run [Num 0; Ref hist; Num 0; Ref f]
                {| self := e; heap := <[f:=[Num 0; Num 0]]> (<[hist:=rows]> h1) |})
      as (ret & Hnew & Hret). cbn [self heap] in *.
    rewrite Hnew. fresh_facts.
    exists ret. eexists. split; [reflexivity|].
    split; [|split].
    + match goal with
      | |- tree_of _ ?h' _ = _ =>
          assert (Hrows' := mapM_tree_of_weaken 1 h1 h' rows _
                              ltac:(subseteq_solve) Htree)
      end.
      repeat first [ rewrite mapM_cons_num | rewrite mapM_cons_ref
                   | erewrite tree_of_ref by lookup_solve ].
      rewrite Hrows'. reflexivity.
    + etrans; [exact Hsub|]. subseteq_solve.
    + eapply lookup_weaken_None; [|exact Hsub]. assumption.
  - alloc_step hist Hhist.
    destruct (new_list_run [Num 0; Ref hist; Num 0]
                {| self := e; heap := <[hist:=rows]> h1 |})
      as (ret & Hnew & Hret). cbn [self heap] in *.
    rewrite Hnew. fresh_facts.
    exists ret. eexists. split; [reflexivity|].
    split; [|split].
    + match goal with
      | |- tree_of _ ?h' _ = _ =>
          assert (Hrows' := mapM_tree_of_weaken 1 h1 h' rows _
                              ltac:(subseteq_solve) Htree)
      end.
      repeat first [ rewrite mapM_cons_num | rewrite mapM_cons_ref
                   | erewrite tree_of_ref by lookup_solve ].
      rewrite Hrows'. reflexivity.
    + etrans; [exact Hsub|]. subseteq_solve.
    + eapply lookup_weaken_None; [|exact Hsub]. assumption.
  - alloc_step hist Hhist.
    destruct (new_list_run [Num 0; Ref hist]
                {| self := e; heap := <[hist:=rows]> h1 |})
      as (ret & Hnew & Hret). cbn [self heap] in *.
    rewrite Hnew. fresh_facts.
    exists ret. eexists. split; [reflexivity|].
    split; [|split].
    + match goal with
      | |- tree_of _ ?h' _ = _ =>
          assert (Hrows' := mapM_tree_of_weaken 1 h1 h' rows _
                              ltac:(subseteq_solve) Htree)
      end.
      repeat first [ rewrite mapM_cons_num | rewrite mapM_cons_ref
                   | erewrite tree_of_ref by lookup_solve ].
      rewrite Hrows'. reflexivity.
    + etrans; [exact Hsub|]. subseteq_solve.
    + eapply lookup_weaken_None; [|exact Hsub]. assumption.
Qed.

Lemma reset_run e h mode :
  supported (fixed e) ->
  exists o ret h',
    reset mode {| self := e; heap := h |}
    = (Return (Ref ret),
       {| self := bind_series mode
                    (set_hydrogen_storage 0
                       (set_counter 1 (set__lastPonctualObservation (Ref o) e)));
          heap := h' |})
    /\ layout (fixed e) h' o 1 (observation_initial (fixed e) 1)
    /\ tree_of 3 h' (Ref ret) = Some (observation_returned (fixed e))
    /\ h ⊆ h' /\ h !! ret = None /\ h !! o = None.
Proof.
  intros Hsup. unfold reset.
  destruct (reset_observation_run e h Hsup) as (o & h1 & Hobs & Hlay & Hsub1 & Ho).
  rewrite (run_bind _ _ _ _ _ Hobs).
  do 2 attr_step.
  rewrite (run_bind _ _ _ _ _ (reset_series_run _ _ _)).
  match goal with
  | |- context [reset_return {| self := ?e'; heap := _ |}] =>
      destruct (reset_return_run e' h1) as (ret & h2 & Hret & Htree & Hsub2 & Hfresh)
  end.
  { destruct mode as [z|[|]]; unfold bind_series;
      repeat match goal with |- context [py_eq_int ?m ?k] => destruct (py_eq_int m k) end;
      exact Hsup. }
  rewrite Hret.
  exists o, ret, h2. split; [reflexivity|].
  split; [eapply layout_weaken; eassumption|].
  split.
  { rewrite Htree. f_equal.
    destruct mode as [z|[|]]; unfold bind_series;
      repeat match goal with |- context [py_eq_int ?m ?k] => destruct (py_eq_int m k) end;
      reflexivity. }
  split; [etrans; eassumption|].
  split; [eapply lookup_weaken_None; eassumption | assumption].
Qed.

(** * Properties of [__init__] *)

Lemma np_slice_nonempty (a : list Q) (hi : Z) :
  a <> [] -> (0 < hi)%Z -> np_slice a 0 hi <> [].
Proof.
  intros Ha Hhi Hnil. apply (f_equal length) in Hnil.
  unfold np_slice, slice_bound in Hnil. cbn [Z.ltb Z.compare] in Hnil.
  destruct (Z.ltb_spec hi 0); [lia|].
  rewrite length_take, length_drop in Hnil. cbn [length] in Hnil.
  destruct a; [done|]. cbn [length] in Hnil. lia.
Qed.

Lemma py_min_seq_nonempty (a : list Q) : a <> [] -> is_Some (py_min_seq a).
Proof. destruct a; [done | eauto]. Qed.

Lemma py_max_seq_nonempty (a : list Q) : a <> [] -> is_Some (py_max_seq a).
Proof. destruct a; [done | eauto]. Qed.

Lemma map_nonempty {A B} (f : A -> B) (l : list A) : l <> [] -> map f l <> [].
Proof. destruct l; done. Qed.

Lemma init_with_returns d p files store0 :
  cons_train_npy files <> [] -> prod_train_npy files <> [] ->
  exists w, init_with d p files store0 = Return w.
Proof.
  intros Hc Hp. unfold init_with.
  match goal with
  | |- context [match ?x with (_, _) => _ end] => destruct x as [[obs dims] h]
  end.
  assert (Hc' : map (fun x => x * 2.1) (np_slice (cons_train_npy files) 0 (1 * 365 * 24)) <> [])
    by (apply map_nonempty, np_slice_nonempty; [assumption | lia]).
  destruct (py_min_seq_nonempty _ Hc') as [? ->].
  destruct (py_max_seq_nonempty _ Hc') as [? ->].
  assert (Hp' : map (fun x => x * 12000 / 1000 * 1)
                  (np_slice (prod_train_npy files) 0 (1 * 365 * 24)) <> [])
    by (apply map_nonempty, np_slice_nonempty; [assumption | lia]).
  destruct (py_min_seq_nonempty _ Hp') as [? ->].
  destruct (py_max_seq_nonempty _ Hp') as [? ->].
  eauto.
Qed.

Lemma alloc_spec h items :
  exists p, alloc h items = (p, <[p := items]> h) /\ h !! p = None.
Proof.
  exists (fresh (dom h)). split; [reflexivity|].
  apply not_elem_of_dom, is_fresh.
Qed.

Ltac alloc_in H p Hf :=
  match type of H with
  | context [alloc ?h ?items] =>
      let E := fresh "E" in
      destruct (alloc_spec h items) as (p & E & Hf); rewrite E in H; clear E
  end.

Lemma init_with_constructed d p files store0 w :
  init_with d p files store0 = Return w -> constructed d p w.
Proof.
  unfold init_with.
  match goal with
  | |- context [match ?x with (_, _) => _ end] =>
      destruct x as [[obs dims] h] eqn:Hflags
  end.
  repeat match goal with
         | |- context [match ?o with Some _ => _ | None => _ end] => destruct o; [|done]
         end.
  intros [= <-].
  constructor; cbn [self heap fixed _dist_equinox _pred _nActions battery_size battery_eta
                      hydrogen_max_power hydrogen_eta _inputDimensions
                      _lastPonctualObservation]; try reflexivity.
  - destruct ((d =? 1) && (p =? 1))%Z; [|destruct ((d =? 1) && (p =? 0))%Z;
      [|destruct ((d =? 0) && (p =? 0))%Z]]; repeat alloc_in Hflags ipattern:(?) ipattern:(?);
      congruence.
  - unfold observation_initial. cbn [_dist_equinox _pred fixed self].
    destruct (Z.eqb_spec d 1) as [?|Hd1], (Z.eqb_spec p 1) as [?|Hp1],
             (Z.eqb_spec d 0) as [?|Hd0], (Z.eqb_spec p 0) as [?|Hp0];
      try lia; subst; cbn [andb orb Z.eqb Pos.eqb app] in *.
    all: repeat alloc_in Hflags ipattern:(?) ipattern:(?).
    all: injection Hflags as <- <- <-; try reflexivity.
    all: fresh_facts; eexists; (split; [reflexivity|]).
    + eapply layout_forecast;
        [reflexivity | reflexivity | lookup_solve | lookup_solve | lookup_solve
        | done | done | done].
    + eapply layout_seasonal;
        [reflexivity | reflexivity | lookup_solve | lookup_solve | done].
    + eapply layout_basic;
        [reflexivity | reflexivity | lookup_solve | lookup_solve | done].
Qed.

(** * The battery level stays a fraction *)

Lemma level_after_bounds need x size eta :
  0 < size -> 0 <= eta -> 0 <= x <= 1 ->
  0 <= level_after need x size eta <= 1.
Proof.
  intros Hsize Heta [Hx0 Hx1]. unfold level_after.
  destruct (Qlt_bool 0 need) eqn:Hpos.
  - apply Qlt_bool_iff in Hpos.
    destruct (Qlt_bool need (x * size)) eqn:Hlt; [|lra].
    apply Qlt_bool_iff in Hlt.
    assert (0 < need / size) by (apply Qlt_shift_div_l; lra).
    assert (need / size < x) by (apply Qlt_shift_div_r; lra).
    lra.
  - apply Qlt_bool_false in Hpos.
    destruct (Qlt_bool need 0) eqn:Hneg; [|lra].
    apply Qlt_bool_iff in Hneg.
    assert (need / size < 0).
    { apply Qlt_shift_div_r; lra. }
    assert (need / size * eta <= 0).
    { assert (0 <= - (need / size) * eta) by (apply Qmult_le_0_compat; lra).
      lra. }
    unfold py_min.
    destruct (Qlt_bool (x - need / size * eta) 1) eqn:Hmin.
    + apply Qlt_bool_iff in Hmin. lra.
    + lra.
Qed.

Lemma act_hydrogen_frame action e h :
  exists out e',
    act_hydrogen action {| self := e; heap := h |} = (out, {| self := e'; heap := h |})
    /\ (e' = e \/ exists s, e' = set_hydrogen_storage s e).
Proof.
  unfold act_hydrogen, bind, getattr, getfixed, setattr, lift, div, ret, raise.
  cbn [self heap].
  repeat (match goal with
          | |- context [match ?x with Some _ => _ | None => _ end] => destruct x
          | |- context [if ?b then _ else _] => destruct b
          | |- context [let '(_, _) := ?p in _] => destruct p
          end; cbn [self heap]);
    eexists _, _; (split; [reflexivity|]); eauto.
Qed.

Lemma run_lift_none {A} (e : exn) (o : option A) w :
  o = None -> lift e o w = (Raise e, w).
Proof. now intros ->. Qed.

Ltac raise_step :=
  first
    [ erewrite run_bind_raise by (apply run_getattr_unset; cbn; eassumption)
    | erewrite run_bind_raise by (apply run_lift_none; first [eassumption | reflexivity]) ].

Lemma act_observation_any e h o x t :
  _lastPonctualObservation e = Some (Ref o) ->
  layout (fixed e) h o x t ->
  exists out h' t',
    act_observation {| self := e; heap := h |} = (out, {| self := e; heap := h' |})
    /\ layout (fixed e) h' o x t'.
Proof.
  intros Hattr Hlay.
  destruct (consumption_norm e) as [cna|] eqn:Hcna;
    [|unfold act_observation; raise_step; eauto].
  destruct (counter e) as [c|] eqn:Hc;
    [|unfold act_observation; run_step; raise_step; eauto].
  destruct (np_index cna c) as [cn|] eqn:Hcn;
    [|unfold act_observation; do 2 run_step; raise_step; eauto].
  destruct (production_norm e) as [pna|] eqn:Hpna;
    [destruct (np_index pna c) as [pn|] eqn:Hpn|].
  - destruct (act_observation_run e h o x t cna pna c cn pn) as (h' & Hrun & Hlay');
      eauto.
  - unfold act_observation.
    destruct Hlay as [r a b Hd Hp Ho Hr Hne | r a b s Hd Hp Ho Hr Hne
                     | r a b s r2 f1 f2 Hd Hp Ho Hr Hr2 Hne Hne2 Hne3];
      repeat run_step; raise_step; (eexists _, _, _; split; [reflexivity|]).
    + eapply layout_basic; [eassumption | eassumption | lookup_solve | lookup_solve | eassumption].
    + eapply layout_seasonal; [eassumption | eassumption | lookup_solve | lookup_solve | eassumption].
    + eapply layout_forecast;
        [eassumption | eassumption | lookup_solve | lookup_solve | lookup_solve
        | eassumption | eassumption | eassumption].
  - unfold act_observation.
    destruct Hlay as [r a b Hd Hp Ho Hr Hne | r a b s Hd Hp Ho Hr Hne
                     | r a b s r2 f1 f2 Hd Hp Ho Hr Hr2 Hne Hne2 Hne3];
      repeat run_step; raise_step; (eexists _, _, _; split; [reflexivity|]).
    + eapply layout_basic; [eassumption | eassumption | lookup_solve | lookup_solve | eassumption].
    + eapply layout_seasonal; [eassumption | eassumption | lookup_solve | lookup_solve | eassumption].
    + eapply layout_forecast;
        [eassumption | eassumption | lookup_solve | lookup_solve | lookup_solve
        | eassumption | eassumption | eassumption].
Qed.

Lemma act_preserves_ready action w x :
  ready w x -> exists x', ready (snd (act action w)) x'.
Proof.
  intros [(o & t & Hattr & Hlay) Hflags Hsize Heta Hx].
  destruct w as [e h]. cbn [self heap] in *.
  destruct (act_hydrogen_frame action e h) as (out & e' & Hhyd & He').
  assert (Hfixed : fixed e' = fixed e)
    by (destruct He' as [->|[s ->]]; reflexivity).
  assert (Hattr' : _lastPonctualObservation e' = Some (Ref o))
    by (destruct He' as [->|[s ->]]; exact Hattr).
  unfold act.
  destruct out as [[need reward]|err].
  2:{ rewrite (run_bind_raise _ _ _ _ _ Hhyd). cbn [snd].
      exists x. split; cbn [self heap]; rewrite ?Hfixed; eauto. }
  rewrite (run_bind _ _ _ _ _ Hhyd).
  rewrite <- Hfixed in Hlay, Hflags, Hsize, Heta.
  destruct (act_battery_run e' h o x t need reward Hattr' Hlay) as (h1 & Hbat & Hlay1);
    [lra|].
  rewrite (run_bind _ _ _ _ _ Hbat).
  destruct (act_observation_any e' h1 o _ _ Hattr' Hlay1) as (out & h2 & t2 & Hobs & Hlay2).
  set (x' := level_after need x (battery_size (fixed e')) (battery_eta (fixed e'))) in *.
  assert (Hx' : 0 <= x' <= 1) by (apply level_after_bounds; assumption).
  exists x'.
  destruct out as [[]|err].
  2:{ rewrite (run_bind_raise _ _ _ _ _ Hobs). cbn [snd].
      split; cbn [self heap]; eauto. }
  rewrite (run_bind _ _ _ _ _ Hobs).
  destruct (counter e') as [c|] eqn:Hc.
  - do 2 run_step. cbn [snd]. split; cbn [self heap]; eauto.
  - raise_step. cbn [snd]. split; cbn [self heap]; eauto.
Qed.

(** * Properties of [observe] *)

Lemma deepcopy_num n q memo h :
  deepcopy n (Num q) memo h = Return (Num q, memo, h).
Proof. destruct n; reflexivity. Qed.

Lemma deepcopy_ref n p memo h items :
  memo !! p = None -> h !! p = Some items ->
  exists y,
    h !! y = None
    /\ deepcopy (S n) (Ref p) memo h
       = deepcopy_items (deepcopy n) y items (<[p := y]> memo) (<[y := []]> h).
Proof.
  intros Hmemo Hp. exists (fresh (dom h)).
  split; [apply not_elem_of_dom, is_fresh|].
  cbn [deepcopy]. rewrite Hmemo, Hp. reflexivity.
Qed.

Lemma deepcopy_items_num copy y q rest memo h :
  (forall memo h, copy (Num q) memo h = Return (Num q, memo, h)) ->
  deepcopy_items copy y (Num q :: rest) memo h
  = deepcopy_items copy y rest memo (alter (fun l => l ++ [Num q]) y h).
Proof. intros Hcopy. cbn [deepcopy_items]. now rewrite Hcopy. Qed.

(** The copy of a list of numbers. *)
Lemma deepcopy_items_flat n y (qs : list Q) memo h acc :
  h !! y = Some acc ->
  deepcopy_items (deepcopy n) y (map Num qs) memo h
  = Return (Ref y, memo, <[y := acc ++ map Num qs]> h).
Proof.
  revert h acc. induction qs as [|q qs IH]; intros h acc Hy.
  - cbn. rewrite app_nil_r. now rewrite insert_id.
  - cbn [map]. rewrite deepcopy_items_num by apply deepcopy_num.
    rewrite (IH _ (acc ++ [Num q])) by (rewrite lookup_alter_eq, Hy; reflexivity).
    rewrite <- app_assoc. cbn [app].
    f_equal. f_equal. apply map_eq. intros i.
    destruct (decide (i = y)) as [->|Hne].
    + now rewrite !lookup_insert_eq.
    + now rewrite !lookup_insert_ne, lookup_alter_ne by done.
Qed.

Lemma deepcopy_flat n p (qs : list Q) memo h :
  memo !! p = None -> h !! p = Some (map Num qs) ->
  exists y,
    h !! y = None
    /\ deepcopy (S n) (Ref p) memo h
       = Return (Ref y, <[p := y]> memo, <[y := map Num qs]> h).
Proof.
  intros Hmemo Hp.
  destruct (deepcopy_ref n p memo h _ Hmemo Hp) as (y & Hy & ->).
  exists y. split; [exact Hy|].
  rewrite (deepcopy_items_flat n y qs _ _ []) by apply lookup_insert_eq.
  now rewrite insert_insert_eq.
Qed.

Ltac ne_solve :=
  first [ done | apply not_eq_sym; done
        | let E := fresh in intros E; subst; congruence ].

Ltac heap_lookup :=
  cbn [heap self fixed];
  repeat first [ rewrite lookup_insert_eq
               | rewrite lookup_alter_eq
               | rewrite lookup_insert_ne by ne_solve
               | rewrite lookup_alter_ne by ne_solve
               | rewrite lookup_empty ];
  first [eassumption | reflexivity].

Ltac copy_facts :=
  repeat match goal with
    | H : alter _ _ _ !! _ = None |- _ => rewrite lookup_alter_None in H
    | H : <[_ := _]> _ !! _ = None |- _ =>
        apply lookup_insert_None in H as [H ?]
    end.

Lemma fresh_subseteq (h h' : gmap loc (list val)) :
  (forall p v, h !! p = Some v -> h' !! p = Some v) -> h ⊆ h'.
Proof. intros H. apply map_subseteq_spec. exact H. Qed.

Lemma locs_of_list n h p items :
  h !! p = Some items ->
  locs_of (S n) h (Ref p) = p :: concat (map (locs_of n h) items).
Proof. intros Hp. cbn [locs_of]. now rewrite Hp. Qed.

Lemma locs_of_num n h q : locs_of n h (Num q) = [].
Proof. destruct n; reflexivity. Qed.

Ltac copy_inner qs :=
  match goal with
  | |- context [deepcopy (S ?n) (Ref ?r) ?memo ?h1] =>
      let y := fresh "y" in
      let Hy := fresh "Hy" in
      destruct (deepcopy_flat n r qs memo h1) as (y & Hy & ->);
      [heap_lookup | heap_lookup | copy_facts]
  end.

Lemma observe_run e h o x t :
  _lastPonctualObservation e = Some (Ref o) ->
  layout (fixed e) h o x t ->
  exists y h',
    observe {| self := e; heap := h |} = (Return (Ref y), {| self := e; heap := h' |})
    /\ layout (fixed e) h' y x t
    /\ h ⊆ h'
    /\ Forall (fun p => h !! p = None) (locs_of 2 h' (Ref y)).
Proof.
  intros Hattr Hlay. unfold observe.
  erewrite run_bind by (apply run_getattr; cbn; eassumption).
  cbn [heap self]. change recursion_limit with (S (S 998)).
  destruct Hlay as [r a b Hd Hp Ho Hr Hne | r a b s Hd Hp Ho Hr Hne
                   | r a b s r2 f1 f2 Hd Hp Ho Hr Hr2 Hne Hne2 Hne3];
    destruct (deepcopy_ref (S 998) o ∅ h _ (lookup_empty _) Ho) as (y & Hy & ->);
    repeat (cbn [deepcopy_items];
            first [ rewrite deepcopy_num | copy_inner [a; b] | copy_inner [f1; f2] ]);
    cbn [deepcopy_items];
    cbn [map] in *; copy_facts;
    exists y; eexists; (split; [reflexivity|]);
    (split; [|split;
      [ apply fresh_subseteq; intros p v Hpv; heap_lookup
      | erewrite locs_of_list by heap_lookup; cbn [map concat app];
        rewrite !locs_of_num;
        repeat (erewrite (locs_of_list 0) by heap_lookup);
        cbn; repeat constructor; assumption ]]).
  - eapply layout_basic; [eassumption | eassumption | heap_lookup | heap_lookup | ne_solve].
  - eapply layout_seasonal; [eassumption | eassumption | heap_lookup | heap_lookup | ne_solve].
  - eapply layout_forecast;
      [eassumption | eassumption | heap_lookup | heap_lookup | heap_lookup
      | ne_solve | ne_solve | ne_solve].
Qed.

(** * Invariants of an episode *)

Lemma fixed_bind_series mode e : fixed (bind_series mode e) = fixed e.
Proof.
  unfold bind_series.
  destruct (py_eq_int mode (-1)); [reflexivity|].
  destruct (py_eq_int mode 0); reflexivity.
Qed.

Lemma obs_bind_series mode e :
  _lastPonctualObservation (bind_series mode e) = _lastPonctualObservation e.
Proof.
  unfold bind_series.
  destruct (py_eq_int mode (-1)); [reflexivity|].
  destruct (py_eq_int mode 0); reflexivity.
Qed.

Lemma reset_ready mode w :
  supported (fixed (self w)) ->
  0 < battery_size (fixed (self w)) ->
  0 <= battery_eta (fixed (self w)) ->
  ready (snd (reset mode w)) 1.
Proof.
  intros Hflags Hsize Heta. destruct w as [e h]. cbn [self heap] in *.
  destruct (reset_run e h mode Hflags) as (o & ret & h' & -> & Hlay & _).
  cbn [snd]. split; cbn [self heap]; rewrite ?fixed_bind_series; cbn [fixed];
    try assumption; [|lra].
  exists o, (observation_initial (fixed e) 1). split; [|exact Hlay].
  now rewrite obs_bind_series.
Qed.

Lemma observe_preserves_ready w x : ready w x -> ready (snd (observe w)) x.
Proof.
  intros [(o & t & Hattr & Hlay) Hflags Hsize Heta Hx].
  destruct w as [e h]. cbn [self heap] in *.
  destruct (observe_run e h o x t Hattr Hlay) as (y & h' & -> & _ & Hsub & _).
  cbn [snd]. split; cbn [self heap]; try assumption.
  exists o, t. split; [exact Hattr|]. eapply layout_weaken; eassumption.
Qed.

Lemma constructed_ready_after_reset d p w0 mode :
  constructed d p w0 ->
  (d = 1 /\ p = 1 \/ d = 1 /\ p = 0 \/ d = 0 /\ p = 0)%Z ->
  ready (snd (reset mode w0)) 1.
Proof.
  intros [Hd Hp _ Hsize Heta _ _ _ _] Hflags.
  apply reset_ready.
  - unfold supported. rewrite Hd, Hp. exact Hflags.
  - rewrite Hsize. reflexivity.
  - rewrite Heta. discriminate.
Qed.

Lemma reachable_ready d p w0 w :
  constructed d p w0 ->
  (d = 1 /\ p = 1 \/ d = 1 /\ p = 0 \/ d = 0 /\ p = 0)%Z ->
  reachable w0 w ->
  exists x, ready w x.
Proof.
  intros Hbuilt Hflags Hreach.
  induction Hreach as [mode | w action _ [x IH] | w _ [x IH] | w mode _ [x IH]].
  - exists 1. eapply constructed_ready_after_reset; eassumption.
  - eapply act_preserves_ready; eassumption.
  - exists x. now apply observe_preserves_ready.
  - exists 1. destruct IH. now apply reset_ready.
Qed.

(** C2. After [reset] and any sequence of calls of [act] (and of [observe]
    and [reset]), the level of the short-term battery is between 0 and 1:
    discharging stops at 0 and charging is capped at 1.  This holds for the
    three layouts the constructor provides for, whether the calls return or
    raise. *)
Theorem battery_level_in_unit_interval
    (d p : Z) (files : data_files) (store0 : gmap loc (list val))
    (w0 w : world) :
  init_with d p files store0 = Return w0 ->
  (d = 1 /\ p = 1 \/ d = 1 /\ p = 0 \/ d = 0 /\ p = 0)%Z ->
  reachable w0 w ->
  exists x, battery_level w = Some x /\ 0 <= x <= 1.
Proof.
  intros Hinit Hflags Hreach.
  apply init_with_constructed in Hinit.
  destruct (reachable_ready d p w0 w Hinit Hflags Hreach)
    as [x [(o & t & Hattr & Hlay) _ _ _ Hx]].
  exists x. split; [|exact Hx].
  eapply layout_battery_level; eassumption.
Qed.

(** * The level of the long-term storage *)

Section SelfPreserved.
Lemma keeps_self_bind {A B} (m : M A) (k : A -> M B) :
  keeps_self m -> (forall a, keeps_self (k a)) -> keeps_self (bind m k).
Proof.
  intros Hm Hk w. unfold bind. specialize (Hm w).
  destruct (m w) as [[a|e] w']; cbn [snd] in *; [|exact Hm].
  now rewrite Hk.
Qed.

Lemma keeps_self_ret {A} (a : A) : keeps_self (ret a).
Proof. now intros w. Qed.

Lemma keeps_self_raise {A} e : keeps_self (raise (A:=A) e).
Proof. now intros w. Qed.

Lemma keeps_self_getattr {A} (f : MyEnv -> option A) : keeps_self (getattr f).
Proof. intros w. unfold getattr. now destruct (f (self w)). Qed.

Lemma keeps_self_getfixed {A} (f : MyEnv_fixed -> A) : keeps_self (getfixed f).
Proof. now intros w. Qed.

Lemma keeps_self_lift {A} e (o : option A) : keeps_self (lift e o).
Proof. destruct o; now intros w. Qed.

Lemma keeps_self_getitem v i : keeps_self (getitem v i).
Proof.
  destruct v as [q|p]; intros w; [reflexivity|]. cbn.
  destruct (heap w !! p) as [items|]; [|reflexivity].
  now destruct (items !! i).
Qed.

Lemma keeps_self_setitem v i x : keeps_self (setitem v i x).
Proof.
  destruct v as [q|p]; intros w; [reflexivity|]. cbn.
  destruct (heap w !! p) as [items|]; [|reflexivity].
  now destruct (decide (i < length items)%nat).
Qed.

Lemma keeps_self_as_float v : keeps_self (as_float v).
Proof. destruct v; now intros w. Qed.

Lemma keeps_self_div x y : keeps_self (div x y).
Proof. unfold div. destruct (Qeq_bool y 0); now intros w. Qed.
End SelfPreserved.

Ltac keeps_self :=
  repeat first
    [ apply keeps_self_bind; [|intros ?]
    | apply keeps_self_ret | apply keeps_self_raise
    | apply keeps_self_getattr | apply keeps_self_getfixed
    | apply keeps_self_lift | apply keeps_self_getitem
    | apply keeps_self_setitem | apply keeps_self_as_float
    | apply keeps_self_div
    | match goal with |- keeps_self (if ?b then _ else _) => destruct b end ].

Lemma keeps_self_act_battery need reward : keeps_self (act_battery need reward).
Proof. unfold act_battery. keeps_self. Qed.

Lemma keeps_self_act_observation : keeps_self act_observation.
Proof. unfold act_observation. keeps_self. Qed.

Lemma act_hydrogen_return action e h nr w' :
  act_hydrogen action {| self := e; heap := h |} = (Return nr, w') ->
  exists s,
    hydrogen_storage e = Some s
    /\ (action = 0 \/ action = 1 \/ action = 2)%Z
    /\ w' = {| self := set_hydrogen_storage (s + diff_hydrogen (fixed e) action) e;
               heap := h |}.
Proof.
  unfold act_hydrogen, diff_hydrogen.
  destruct (consumption e) as [ca|] eqn:Hca;
    [run_step | raise_step; done].
  destruct (counter e) as [c|] eqn:Hc;
    [run_step | raise_step; done].
  destruct (np_index ca (c - 1)) as [cons|] eqn:Hcons;
    [run_step | raise_step; done].
  destruct (production e) as [pa|] eqn:Hpa;
    [do 2 run_step | raise_step; done].
  destruct (np_index pa (c - 1)) as [prod|] eqn:Hprod;
    [run_step | raise_step; done].
  destruct (hydrogen_storage e) as [s|] eqn:Hs.
  - destruct (Z.eqb_spec action 0) as [->|H0]; cbn [Z.eqb Pos.eqb];
      [repeat run_step; intros [= <- <-]; eauto 6|].
    destruct (Z.eqb_spec action 1) as [->|H1]; cbn [Z.eqb Pos.eqb];
      [repeat run_step; intros [= <- <-]; eauto 6|].
    destruct (Z.eqb_spec action 2) as [->|H2]; cbn [Z.eqb Pos.eqb];
      [|repeat run_step; unfold bind; cbn; done].
    repeat run_step. unfold bind at 1, div.
    destruct (Qeq_bool (hydrogen_eta (fixed e)) 0); cbn [self heap fixed raise ret]; [done|].
    repeat run_step. intros [= <- <-]. eauto 6.
  - destruct (Z.eqb_spec action 0) as [->|H0]; cbn [Z.eqb Pos.eqb];
      [repeat run_step; raise_step; done|].
    destruct (Z.eqb_spec action 1) as [->|H1]; cbn [Z.eqb Pos.eqb];
      [repeat run_step; raise_step; done|].
    destruct (Z.eqb_spec action 2) as [->|H2]; cbn [Z.eqb Pos.eqb];
      [|repeat run_step; unfold bind; cbn; done].
    repeat run_step. unfold bind at 1, div.
    destruct (Qeq_bool (hydrogen_eta (fixed e)) 0); cbn [self heap fixed raise ret]; [done|].
    repeat run_step. raise_step. done.
Qed.

Lemma act_return_hydrogen action w r w' :
  act action w = (Return r, w') ->
  exists s,
    hydrogen_storage (self w) = Some s
    /\ (action = 0 \/ action = 1 \/ action = 2)%Z
    /\ hydrogen_storage (self w')
       = Some (s + diff_hydrogen (fixed (self w)) action)
    /\ fixed (self w') = fixed (self w).
Proof.
  destruct w as [e h]. unfold act. unfold bind at 1.
  destruct (act_hydrogen action {| self := e; heap := h |}) as [[[need reward]|err] w1] eqn:Hhyd;
    [|done].
  destruct (act_hydrogen_return _ _ _ _ _ Hhyd) as (s & Hs & Haction & ->).
  unfold bind at 1.
  pose proof (keeps_self_act_battery need reward
    {| self := set_hydrogen_storage (s + diff_hydrogen (fixed e) action) e; heap := h |})
    as Hbat.
  destruct (act_battery need reward _) as [[reward'|err] w2]; [|done].
  cbn [snd self] in Hbat.
  unfold bind at 1.
  pose proof (keeps_self_act_observation w2) as Hobs.
  destruct (act_observation w2) as [[[]|err] w3]; [|done].
  cbn [snd] in Hobs.
  unfold bind, getattr, setattr, ret.
  destruct (counter (self w3)) as [c|]; [|done].
  intros [= <- <-]. cbn [self heap].
  exists s. rewrite Hobs, Hbat. cbn. auto.
Qed.

Lemma run_acts_hydrogen actions w rewards w' s :
  run_acts actions w = (Return rewards, w') ->
  hydrogen_storage (self w) = Some s ->
  Forall (fun a => a = 0 \/ a = 1 \/ a = 2)%Z actions
  /\ fixed (self w') = fixed (self w)
  /\ exists s',
       hydrogen_storage (self w') = Some s'
       /\ s' == s + Qsum (map (diff_hydrogen (fixed (self w))) actions).
Proof.
  revert w rewards w' s. induction actions as [|a rest IH]; intros w rewards w' s.
  - intros [= <- <-] Hs. split; [constructor|]. split; [reflexivity|].
    exists s. split; [exact Hs|]. cbn. lra.
  - cbn [run_acts]. unfold bind at 1.
    destruct (act a w) as [[r|err] w1] eqn:Hact; [|done].
    destruct (act_return_hydrogen a w r w1 Hact) as (s0 & Hs0 & Ha & Hs1 & Hfixed).
    unfold bind at 1.
    destruct (run_acts rest w1) as [[rs|err] w2] eqn:Hrest; [|done].
    intros [= <- <-] Hs. rewrite Hs in Hs0. injection Hs0 as <-.
    destruct (IH w1 rs w2 _ Hrest Hs1) as (Hall & Hfixed' & s' & Hs' & Hsum).
    split; [constructor; assumption|].
    split; [congruence|].
    exists s'. split; [exact Hs'|].
    rewrite Hsum, Hfixed. unfold Qsum. cbn [map fold_right]. lra.
Qed.


(** * [reset], whatever the flags and the mode *)

Lemma reset_observation_any e h :
  exists e1 h1,
    reset_observation {| self := e; heap := h |} = (Return tt, {| self := e1; heap := h1 |})
    /\ (e1 = e \/ exists v, e1 = set__lastPonctualObservation v e).
Proof.
  unfold reset_observation. do 2 attr_step.
  destruct (_ && _)%Z; [|destruct (_ && _)%Z; [|destruct (_ && _)%Z]].
  - alloc_step a Ha. alloc_step b Hb. alloc_step o Ho.
    eexists _, _. split; [reflexivity|]. eauto.
  - alloc_step a Ha. alloc_step o Ho.
    eexists _, _. split; [reflexivity|]. eauto.
  - alloc_step a Ha. alloc_step o Ho.
    eexists _, _. split; [reflexivity|]. eauto.
  - eexists _, _. split; [reflexivity|]. eauto.
Qed.

Lemma reset_return_any e h :
  exists v h', reset_return {| self := e; heap := h |} = (Return v, {| self := e; heap := h' |}).
Proof.
  unfold reset_return. do 2 attr_step.
  destruct (zero_rows_run 12 e h) as (rows & h1 & Hrows & _).
  destruct (_ && _)%Z; [|destruct (_ && _)%Z];
    rewrite (run_bind _ _ _ _ _ Hrows).
  - alloc_step hist Hhist. alloc_step f Hf. eexists _, _. reflexivity.
  - alloc_step hist Hhist. eexists _, _. reflexivity.
  - alloc_step hist Hhist. eexists _, _. reflexivity.
Qed.

Lemma reset_any mode e h :
  exists v e1 h',
    reset mode {| self := e; heap := h |}
    = (Return v,
       {| self := bind_series mode (set_hydrogen_storage 0 (set_counter 1 e1));
          heap := h' |})
    /\ (e1 = e \/ exists o, e1 = set__lastPonctualObservation o e).
Proof.
  unfold reset.
  destruct (reset_observation_any e h) as (e1 & h1 & Hobs & He1).
  rewrite (run_bind _ _ _ _ _ Hobs).
  do 2 attr_step.
  rewrite (run_bind _ _ _ _ _ (reset_series_run _ _ _)).
  match goal with
  | |- context [reset_return {| self := ?e'; heap := ?h' |}] =>
      destruct (reset_return_any e' h') as (v & h2 & ->)
  end.
  eauto 6.
Qed.
(** C3 (as amended). The level of the long-term storage is not kept at or
    above 0: [reset] sets it to 0 and each step that returns adds
    [-hydrogen_max_power], [0] or [hydrogen_max_power] for the actions 0, 1
    and 2, with no check.  After [reset] and a run of steps that all return,
    it is the sum of these changes, so it is negative as soon as
    discharging steps outnumber charging ones. *)
Theorem long_term_level_is_sum_of_changes
    (d p : Z) (files : data_files) (store0 : gmap loc (list val))
    (w0 w1 w2 : world) (mode : pyint) (v : outcome val)
    (actions : list Z) (rewards : list Q) :
  init_with d p files store0 = Return w0 ->
  reset mode w0 = (v, w1) ->
  run_acts actions w1 = (Return rewards, w2) ->
  Forall (fun a => a = 0 \/ a = 1 \/ a = 2)%Z actions
  /\ exists s,
       hydrogen_storage (self w2) = Some s
       /\ s == Qsum (map (diff_hydrogen (fixed (self w0))) actions)
       /\ (Forall (fun a => a = 0%Z) actions ->
           s == - (1.1 * inject_Z (Z.of_nat (length actions)))).
Proof.
  intros Hinit Hreset Hrun.
  assert (Hw1 : hydrogen_storage (self w1) = Some 0
                /\ fixed (self w1) = fixed (self w0)).
  { destruct w0 as [e h].
    destruct (reset_any mode e h) as (v' & e1 & h' & Hr & He1).
    rewrite Hr in Hreset. injection Hreset as _ <-. cbn [self].
    unfold bind_series.
    destruct (py_eq_int mode (-1)); [|destruct (py_eq_int mode 0)];
      destruct He1 as [->|[o ->]]; split; reflexivity. }
  destruct Hw1 as [Hs Hfixed].
  destruct (run_acts_hydrogen actions w1 rewards w2 0 Hrun Hs)
    as (Hall & _ & s & Hs2 & Hsum).
  split; [exact Hall|].
  exists s. split; [exact Hs2|].
  rewrite Hfixed in Hsum.
  split; [rewrite Hsum; lra|].
  intros Hzero. rewrite Hsum.
  apply init_with_constructed in Hinit. destruct Hinit as [_ _ _ _ _ Hpower _ _ _].
  clear - Hzero Hpower.
  induction Hzero as [|a rest -> _ IH].
  - reflexivity.
  - cbn [map length]. unfold Qsum in *. cbn [fold_right].
    unfold diff_hydrogen at 1. cbn [Z.eqb].
    rewrite Nat2Z.inj_succ, <- Z.add_1_r, inject_Z_plus.
    change (inject_Z 1) with 1. lra.
Qed.

Lemma all_zero_returned fx :
  supported fx -> all_zero (observation_returned fx) = true.
Proof.
  unfold observation_returned.
  intros [[-> ->] | [[-> ->] | [-> ->]]]; reflexivity.
Qed.

(** C5. For each of the three layouts and every mode, [reset] leaves the
    battery full (level 1), the long-term storage at 0 and the cursor at 1,
    and returns a value built from literals in which every number is 0: the
    battery slot of the value returned is 0 although the level held by the
    object is 1. *)
Theorem reset_state_and_returned_value (w : world) (mode : pyint) :
  supported (fixed (self w)) ->
  exists ret w',
    reset mode w = (Return (Ref ret), w')
    /\ battery_level w' = Some 1
    /\ hydrogen_storage (self w') = Some 0
    /\ counter (self w') = Some 1%Z
    /\ exists rest,
         tree_of 3 (heap w') (Ref ret) = Some (PList (PNum 0 :: rest))
         /\ all_zero (PList (PNum 0 :: rest)) = true.
Proof.
  intros Hflags. destruct w as [e h]. cbn [self heap] in *.
  destruct (reset_run e h mode Hflags) as (o & ret & h' & Hrun & Hlay & Htree & _).
  exists ret. eexists. split; [exact Hrun|].
  split.
  { eapply layout_battery_level; cbn [self heap].
    - rewrite obs_bind_series. reflexivity.
    - rewrite fixed_bind_series. exact Hlay. }
  cbn [self heap]. unfold bind_series.
  split; [destruct (py_eq_int mode (-1)); [|destruct (py_eq_int mode 0)]; reflexivity|].
  split; [destruct (py_eq_int mode (-1)); [|destruct (py_eq_int mode 0)]; reflexivity|].
  eexists. split; [exact Htree|].
  now apply all_zero_returned.
Qed.

(** C10 (as amended). [reset] has no error path and rejects no mode: a
    mode equal to -1 binds the training series, a mode equal to 0 binds the
    validation series, and this includes [False], which Python takes equal
    to 0; every other mode (1, 7, [True], ...) binds the test series. *)
Theorem reset_binds_series_by_mode (w : world) (mode : pyint) :
  exists v w',
    reset mode w = (Return v, w')
    /\ let fx := fixed (self w) in
       (int_of mode = (-1)%Z ->
        series_of (self w')
        = (Some (production_train_norm fx), Some (production_train fx),
           Some (consumption_train_norm fx), Some (consumption_train fx)))
       /\ (int_of mode = 0%Z ->
           series_of (self w')
           = (Some (production_valid_norm fx), Some (production_valid fx),
              Some (consumption_valid_norm fx), Some (consumption_valid fx)))
       /\ (int_of mode <> (-1)%Z -> int_of mode <> 0%Z ->
           series_of (self w')
           = (Some (production_test_norm fx), Some (production_test fx),
              Some (consumption_test_norm fx), Some (consumption_test fx)))
       /\ int_of (PBool false) = 0%Z
       /\ int_of (PBool true) = 1%Z.
Proof.
  destruct w as [e h].
  destruct (reset_any mode e h) as (v & e1 & h' & Hrun & He1).
  exists v. eexists. split; [exact Hrun|].
  cbn [self heap]. unfold bind_series, py_eq_int, series_of.
  destruct He1 as [->|[o ->]];
    (destruct (Z.eqb_spec (int_of mode) (-1)) as [Hm1|Hm1];
     [|destruct (Z.eqb_spec (int_of mode) 0) as [Hm0|Hm0]]);
    (split; [intros ?; first [reflexivity | lia]|]);
    (split; [intros ?; first [reflexivity | lia]|]);
    (split; [intros ? ?; first [reflexivity | lia]|]);
    split; reflexivity.
Qed.

(** C7 (as amended). The constructor has no check of the flags and no
    ConfigurationError: with the training files loaded, it returns an object
    for every pair of flags.  For the three pairs it provides for, the
    object has the matching [inputDimensions] and a zero observation of
    that layout.  For the pair (seasonal off, forecast on) it assigns
    neither attribute: the object comes without an observation and
    [inputDimensions()] raises AttributeError. *)
Theorem init_with_layouts
    (d p : Z) (files : data_files) (store0 : gmap loc (list val)) :
  cons_train_npy files <> [] ->
  prod_train_npy files <> [] ->
  exists w,
    init_with d p files store0 = Return w
    /\ nActions w = (Return 3%Z, w)
    /\ (d = 1%Z /\ p = 1%Z ->
        inputDimensions w = (Return [[1]; [12; 2]; [1]; [1; 2]]%Z, w)
        /\ observation w
           = Some (PList [PNum 0; PList [PNum 0; PNum 0]; PNum 0;
                          PList [PNum 0; PNum 0]]))
    /\ (d = 1%Z /\ p = 0%Z ->
        inputDimensions w = (Return [[1]; [12; 2]; [1]]%Z, w)
        /\ observation w
           = Some (PList [PNum 0; PList [PNum 0; PNum 0]; PNum 0]))
    /\ (d = 0%Z /\ p = 0%Z ->
        inputDimensions w = (Return [[1]; [12; 2]]%Z, w)
        /\ observation w = Some (PList [PNum 0; PList [PNum 0; PNum 0]]))
    /\ (d = 0%Z /\ p = 1%Z ->
        inputDimensions w = (Raise AttributeError, w)
        /\ _lastPonctualObservation (self w) = None).
Proof.
  intros Hc Hp.
  destruct (init_with_returns d p files store0 Hc Hp) as [w Hw].
  exists w. split; [exact Hw|].
  destruct (init_with_constructed _ _ _ _ _ Hw)
    as [Hd Hpred Hn _ _ _ _ Hdims Hobs].
  split; [unfold nActions, getfixed; now rewrite Hn|].
  unfold inputDimensions. rewrite Hdims.
  (split; [|split; [|split]]); intros [-> ->];
    cbn [Z.eqb Pos.eqb andb orb] in *; (split; [reflexivity|]); try exact Hobs.
  all: destruct Hobs as (o & Hattr & Hlay);
    rewrite (layout_observation _ _ _ _ Hattr Hlay);
    unfold observation_initial; rewrite Hd, Hpred; reflexivity.
Qed.

Lemma subseteq_insert_unallocated (h h1 : gmap loc (list val)) p items :
  h ⊆ h1 -> h !! p = None -> h ⊆ <[p := items]> h1.
Proof.
  intros Hsub Hp. apply map_subseteq_spec. intros i v Hi.
  rewrite lookup_insert_ne by (intros ->; congruence).
  eapply lookup_weaken; eassumption.
Qed.

(** C9. Two calls of [observe] in a row return equal values, equal to the
    observation the object holds; and the value returned is a copy: writing
    to any list object reachable from it leaves the observation of the
    object as it was. *)
Theorem observe_twice_equal_and_copy
    (w : world) (o : loc) (x : Q) (t : pytree) :
  _lastPonctualObservation (self w) = Some (Ref o) ->
  layout (fixed (self w)) (heap w) o x t ->
  exists y1 w1 y2 w2,
    observe w = (Return (Ref y1), w1)
    /\ observe w1 = (Return (Ref y2), w2)
    /\ tree_of 2 (heap w2) (Ref y1) = Some t
    /\ tree_of 2 (heap w2) (Ref y2) = Some t
    /\ observation w2 = Some t
    /\ Forall (fun p => forall items,
                 observation {| self := self w1; heap := <[p := items]> (heap w1) |}
                 = Some t)
         (locs_of 2 (heap w1) (Ref y1)).
Proof.
  intros Hattr Hlay. destruct w as [e h]. cbn [self heap] in *.
  destruct (observe_run e h o x t Hattr Hlay) as (y1 & h1 & Hrun1 & Hlay1 & Hsub1 & Hfresh1).
  assert (Hlay_o1 : layout (fixed e) h1 o x t) by (eapply layout_weaken; eassumption).
  destruct (observe_run e h1 o x t Hattr Hlay_o1) as (y2 & h2 & Hrun2 & Hlay2 & Hsub2 & _).
  exists y1, {| self := e; heap := h1 |}, y2, {| self := e; heap := h2 |}.
  split; [exact Hrun1|]. split; [exact Hrun2|].
  split; [eapply layout_tree, layout_weaken; eassumption|].
  split; [eapply layout_tree; eassumption|].
  split; [eapply layout_observation; [exact Hattr | eapply layout_weaken; eassumption]|].
  cbn [self heap]. eapply Forall_impl; [exact Hfresh1|].
  intros p Hp items. eapply layout_observation; [exact Hattr|].
  cbn [self heap]. eapply layout_weaken; [exact Hlay|].
  now apply subseteq_insert_unallocated.
Qed.

(** * Further properties of the environment *)

(** ** Indexing the series *)

Lemma np_index_in_range (a : list Q) (i : Z) :
  (0 <= i < Z.of_nat (length a))%Z -> exists x, np_index a i = Some x.
Proof.
  intros Hi. unfold np_index.
  destruct (Z.leb_spec 0 i); [|lia].
  destruct (Z.ltb_spec i (Z.of_nat (length a))); [|lia].
  cbn [andb]. apply lookup_lt_is_Some. lia.
Qed.

Lemma np_index_beyond (a : list Q) (i : Z) :
  (Z.of_nat (length a) <= i)%Z -> np_index a i = None.
Proof.
  intros Hi. unfold np_index.
  destruct (Z.leb_spec 0 i); [|lia].
  destruct (Z.ltb_spec i (Z.of_nat (length a))); [lia|].
  cbn [andb].
  destruct (Z.leb_spec (- Z.of_nat (length a)) i); [|reflexivity].
  destruct (Z.ltb_spec i 0); [lia | reflexivity].
Qed.

(** ** What a step that returns has done to the attributes *)

Lemma act_return_self action w r w' :
  act action w = (Return r, w') ->
  exists s c,
    hydrogen_storage (self w) = Some s
    /\ counter (self w) = Some c
    /\ (action = 0 \/ action = 1 \/ action = 2)%Z
    /\ self w'
       = set_counter (c + 1)
           (set_hydrogen_storage (s + diff_hydrogen (fixed (self w)) action) (self w)).
Proof.
  destruct w as [e h]. unfold act. unfold bind at 1.
  destruct (act_hydrogen action {| self := e; heap := h |})
    as [[[need reward]|err] w1] eqn:Hhyd; [|done].
  destruct (act_hydrogen_return _ _ _ _ _ Hhyd) as (s & Hs & Haction & ->).
  unfold bind at 1.
  pose proof (keeps_self_act_battery need reward
    {| self := set_hydrogen_storage (s + diff_hydrogen (fixed e) action) e; heap := h |})
    as Hbat.
  destruct (act_battery need reward _) as [[reward'|err] w2]; [|done].
  cbn [snd self] in Hbat.
  unfold bind at 1.
  pose proof (keeps_self_act_observation w2) as Hobs.
  destruct (act_observation w2) as [[[]|err] w3]; [|done].
  cbn [snd] in Hobs.
  unfold bind, getattr, setattr, ret.
  destruct (counter (self w3)) as [c|] eqn:Hc; [|done].
  intros [= <- <-]. cbn [self heap].
  rewrite Hobs, Hbat in Hc |- *. cbn in Hc.
  exists s, c. auto.
Qed.

Lemma run_acts_counter
    (actions : list Z) (w w' : world) (rewards : list Q) (c : Z) :
  run_acts actions w = (Return rewards, w') ->
  counter (self w) = Some c ->
  counter (self w') = Some (c + Z.of_nat (length actions))%Z
  /\ length rewards = length actions.
Proof.
  revert w rewards c. induction actions as [|a rest IH]; intros w rewards c.
  - intros [= <- <-] Hc. rewrite Z.add_0_r. auto.
  - cbn [run_acts]. unfold bind at 1.
    destruct (act a w) as [[r|err] w1] eqn:Hact; [|done].
    destruct (act_return_self a w r w1 Hact) as (s & c0 & _ & Hc0 & _ & Hself).
    unfold bind at 1.
    destruct (run_acts rest w1) as [[rs|err] w2] eqn:Hrest; [|done].
    intros [= <- <-] Hc. rewrite Hc in Hc0. injection Hc0 as <-.
    destruct (IH w1 rs (c + 1)%Z Hrest) as [Hc' Hlen].
    { rewrite Hself. reflexivity. }
    split; [|cbn [length]; congruence].
    rewrite Hc'. f_equal. cbn [length]. lia.
Qed.

(** X1. The cursor moves by one per step that returns: after a run of
    steps that all return, it has advanced by the number of steps, and
    there is one reward per step. *)
Theorem run_acts_advances_cursor
    (actions : list Z) (w w' : world) (rewards : list Q) (c : Z) :
  run_acts actions w = (Return rewards, w') ->
  counter (self w) = Some c ->
  counter (self w') = Some (c + Z.of_nat (length actions))%Z
  /\ length rewards = length actions.
Proof. apply run_acts_counter. Qed.

(** ** Steps that raise *)

(** X2. A step at the end of the series is not atomic.  When the physical
    series still have index [c - 1] but the normalised consumption has no
    index [c], [act] raises IndexError at line 198, after line 171 has
    changed the long-term level and lines 175-186 the battery level; the
    cursor and the other slots of the observation are as before. *)
Theorem act_at_end_of_series_mutates_then_raises
    (w : world) (action : Z) (o : loc) (x : Q) (t : pytree)
    (c : Z) (ca pa cna : list Q) (cons prod s : Q) :
  _lastPonctualObservation (self w) = Some (Ref o) ->
  layout (fixed (self w)) (heap w) o x t ->
  counter (self w) = Some c ->
  hydrogen_storage (self w) = Some s ->
  consumption (self w) = Some ca -> np_index ca (c - 1) = Some cons ->
  production (self w) = Some pa -> np_index pa (c - 1) = Some prod ->
  consumption_norm (self w) = Some cna -> np_index cna c = None ->
  ~ battery_size (fixed (self w)) == 0 ->
  ~ hydrogen_eta (fixed (self w)) == 0 ->
  (action = 0 \/ action = 1 \/ action = 2)%Z ->
  let fx := fixed (self w) in
  let need := cons - prod + true_energy_avail_from_hydrogen fx action in
  let x' := level_after need x (battery_size fx) (battery_eta fx) in
  exists w',
    act action w = (Raise IndexError, w')
    /\ hydrogen_storage (self w') = Some (s + diff_hydrogen fx action)
    /\ battery_level w' = Some x'
    /\ observation w' = Some (with_level x' t)
    /\ counter (self w') = Some c.
Proof.
  intros Hattr Hlay Hc Hs Hca Hcons Hpa Hprod Hcna Hcn Hsize Heta Haction fx need x'.
  destruct w as [e h]. cbn [self heap] in *.
  pose proof (act_battery_run
                (set_hydrogen_storage (s + diff_hydrogen (fixed e) action) e)
                h o x t need (diff_hydrogen (fixed e) action * 0.1)
                Hattr Hlay Hsize) as (h1 & Hbat & Hlay1).
  exists {| self := set_hydrogen_storage (s + diff_hydrogen (fixed e) action) e;
            heap := h1 |}.
  split.
  - unfold act, act_hydrogen.
    do 6 run_step.
    subst need x' fx. unfold true_energy_avail_from_hydrogen, diff_hydrogen in *.
    destruct Haction as [-> | [-> | ->]]; cbn [Z.eqb Pos.eqb] in *;
      repeat run_step;
      rewrite (run_bind _ _ _ _ _ Hbat);
      unfold act_observation; repeat run_step; raise_step; reflexivity.
  - split; [reflexivity|].
    split; [eapply layout_battery_level; [exact Hattr | exact Hlay1]|].
    split; [eapply layout_observation; [exact Hattr | exact Hlay1]|].
    exact Hc.
Qed.

Lemma act_index_error_line_155
    (w : world) (action : Z) (c : Z) (ca : list Q) :
  consumption (self w) = Some ca ->
  counter (self w) = Some c ->
  (Z.of_nat (length ca) < c)%Z ->
  act action w = (Raise IndexError, w).
Proof.
  intros Hca Hc Hlen.
  assert (Hidx : np_index ca (c - 1) = None) by (apply np_index_beyond; lia).
  unfold act, act_hydrogen.
  rewrite bind_assoc. run_step. rewrite bind_assoc. run_step.
  rewrite bind_assoc. raise_step. reflexivity.
Qed.

(** X3. A step whose cursor is past the end of the physical series raises
    IndexError at line 155 and changes nothing. *)
Theorem act_past_the_end_changes_nothing
    (w : world) (action : Z) (c : Z) (ca : list Q) :
  consumption (self w) = Some ca ->
  counter (self w) = Some c ->
  (Z.of_nat (length ca) < c)%Z ->
  act action w = (Raise IndexError, w).
Proof. apply act_index_error_line_155. Qed.

(** ** The battery in one step *)

Lemma py_min_Qmin a b : py_min a b == Qmin a b.
Proof.
  unfold py_min. destruct (Qlt_bool b a) eqn:H.
  - apply Qlt_bool_iff in H. rewrite Q.min_r by lra. reflexivity.
  - apply Qlt_bool_false in H. rewrite Q.min_l by lra. reflexivity.
Qed.

(** X4. Surplus.  When the net need is negative or zero, a step charges
    the battery with the surplus times [battery_eta / battery_size], up to
    the level 1 where the rest of the surplus is lost; the level does not
    go down and the reward carries no penalty. *)
Theorem act_surplus_charges_battery
    (w : world) (action : Z) (o : loc) (x : Q) (t : pytree)
    (c : Z) (cons prod cn pn : Q) (pna : list Q) (s : Q) :
  _lastPonctualObservation (self w) = Some (Ref o) ->
  layout (fixed (self w)) (heap w) o x t ->
  in_range (self w) c cons prod cn pn pna s ->
  0 < battery_size (fixed (self w)) ->
  0 <= battery_eta (fixed (self w)) ->
  ~ hydrogen_eta (fixed (self w)) == 0 ->
  (action = 0 \/ action = 1 \/ action = 2)%Z ->
  x <= 1 ->
  let fx := fixed (self w) in
  let need := cons - prod + true_energy_avail_from_hydrogen fx action in
  need <= 0 ->
  exists reward w' x',
    act action w = (Return reward, w')
    /\ battery_level w' = Some x'
    /\ x' == Qmin 1 (x + (- need) / battery_size fx * battery_eta fx)
    /\ x <= x'
    /\ reward == diff_hydrogen fx action * 0.1.
Proof.
  intros Hattr Hlay Hrange Hsize Heta Hheta Haction Hx.
  assert (Hsize0 : ~ battery_size (fixed (self w)) == 0) by lra.
  intros fx need Hneed.
  destruct w as [e h]. subst fx need. cbn [self heap] in *.
  destruct (act_run e h o x t action c cons prod cn pn pna s
              Hattr Hlay Hrange Hsize0 Hheta Haction) as (h' & Hrun & Hlay').
  eexists _, _, _. split; [exact Hrun|].
  split; [eapply layout_battery_level; [exact Hattr | exact Hlay']|].
  set (need := cons - prod + true_energy_avail_from_hydrogen (fixed e) action) in *.
  set (size := battery_size (fixed e)) in *.
  set (eta := battery_eta (fixed e)) in *.
  clearbody need size eta.
  assert (Hgain : 0 <= (- need) / size * eta).
  { apply Qmult_le_0_compat; [|exact Heta].
    apply Qle_shift_div_l; [exact Hsize | lra]. }
  assert (Heq : x - need / size * eta == x + (- need) / size * eta)
    by (field; lra).
  assert (Hlevel : level_after need x size eta
                   == Qmin 1 (x + (- need) / size * eta)).
  { unfold level_after.
    destruct (Qlt_bool 0 need) eqn:Hpos;
      [apply Qlt_bool_iff in Hpos; lra|].
    destruct (Qlt_bool need 0) eqn:Hneg.
    - rewrite py_min_Qmin, Heq. reflexivity.
    - apply Qlt_bool_false in Hneg.
      assert (Hz : (- need) / size * eta == 0).
      { assert (Hn : need == 0) by lra. rewrite Hn. field. lra. }
      rewrite Hz, Q.min_r by lra. lra. }
  split; [exact Hlevel|].
  split.
  - rewrite Hlevel. apply Q.min_glb; lra.
  - unfold reward_after.
    destruct (Qlt_bool 0 need) eqn:Hpos; [apply Qlt_bool_iff in Hpos; lra|].
    reflexivity.
Qed.

(** X5. Shortfall.  When the net need is more than the battery holds, a
    step empties the battery and takes twice the part of the need left
    uncovered off the reward. *)
Theorem act_shortfall_empties_battery
    (w : world) (action : Z) (o : loc) (x : Q) (t : pytree)
    (c : Z) (cons prod cn pn : Q) (pna : list Q) (s : Q) :
  _lastPonctualObservation (self w) = Some (Ref o) ->
  layout (fixed (self w)) (heap w) o x t ->
  in_range (self w) c cons prod cn pn pna s ->
  ~ battery_size (fixed (self w)) == 0 ->
  ~ hydrogen_eta (fixed (self w)) == 0 ->
  (action = 0 \/ action = 1 \/ action = 2)%Z ->
  let fx := fixed (self w) in
  let need := cons - prod + true_energy_avail_from_hydrogen fx action in
  0 < need ->
  x * battery_size fx < need ->
  exists reward w',
    act action w = (Return reward, w')
    /\ battery_level w' = Some 0
    /\ reward == diff_hydrogen fx action * 0.1
                 - 2 * (need - x * battery_size fx)
    /\ reward < diff_hydrogen fx action * 0.1.
Proof.
  intros Hattr Hlay Hrange Hsize Hheta Haction fx need Hpos Hshort.
  destruct w as [e h]. subst fx need. cbn [self heap] in *.
  destruct (act_run e h o x t action c cons prod cn pn pna s
              Hattr Hlay Hrange Hsize Hheta Haction) as (h' & Hrun & Hlay').
  set (need := cons - prod + true_energy_avail_from_hydrogen (fixed e) action) in *.
  set (size := battery_size (fixed e)) in *.
  assert (Hb1 : Qlt_bool 0 need = true) by now apply Qlt_bool_iff.
  assert (Hb2 : Qlt_bool need (x * size) = false) by (apply Qlt_bool_false; lra).
  eexists _, _. split; [exact Hrun|].
  split.
  { erewrite layout_battery_level; [|exact Hattr|exact Hlay'].
    unfold level_after. now rewrite Hb1, Hb2. }
  unfold reward_after. rewrite Hb1, Hb2.
  split; lra.
Qed.


(** ** How long an episode runs *)

Lemma run_acts_within_series_aux (actions : list Z) :
  forall (e : MyEnv) (h : gmap loc (list val)) (o : loc) (x : Q) (t : pytree)
         (c : Z) (ca pa cna pna : list Q) (s : Q),
    _lastPonctualObservation e = Some (Ref o) ->
    layout (fixed e) h o x t ->
    counter e = Some c ->
    hydrogen_storage e = Some s ->
    consumption e = Some ca -> production e = Some pa ->
    consumption_norm e = Some cna -> production_norm e = Some pna ->
    ~ battery_size (fixed e) == 0 ->
    ~ hydrogen_eta (fixed e) == 0 ->
    Forall (fun a => a = 0 \/ a = 1 \/ a = 2)%Z actions ->
    (1 <= c)%Z ->
    (c + Z.of_nat (length actions) <= Z.of_nat (length ca))%Z ->
    (c + Z.of_nat (length actions) <= Z.of_nat (length pa))%Z ->
    (c + Z.of_nat (length actions) <= Z.of_nat (length cna))%Z ->
    (c + Z.of_nat (length actions) <= Z.of_nat (length pna))%Z ->
    exists rewards w',
      run_acts actions {| self := e; heap := h |} = (Return rewards, w').
Proof.
  induction actions as [|a rest IH];
    intros e h o x t c ca pa cna pna s Hattr Hlay Hc Hs Hca Hpa Hcna Hpna
           Hsize Heta Hvalid Hc1 Lca Lpa Lcna Lpna.
  - eexists _, _. reflexivity.
  - cbn [length] in *. inversion Hvalid as [|? ? Ha Hrest]; subst.
    destruct (np_index_in_range ca (c - 1)) as [cons Hcons]; [lia|].
    destruct (np_index_in_range pa (c - 1)) as [prod Hprod]; [lia|].
    destruct (np_index_in_range cna c) as [cn Hcn]; [lia|].
    destruct (np_index_in_range pna c) as [pn Hpn]; [lia|].
    assert (Hrange : in_range e c cons prod cn pn pna s)
      by (constructor; eauto).
    destruct (act_run e h o x t a c cons prod cn pn pna s
                Hattr Hlay Hrange Hsize Heta Ha) as (h' & Hrun & Hlay').
    cbn [run_acts]. rewrite (run_bind _ _ _ _ _ Hrun).
    edestruct (IH (set_counter (c + 1)
                     (set_hydrogen_storage (s + diff_hydrogen (fixed e) a) e))
                 h' o) as (rs & w' & Hrest');
      [exact Hattr | exact Hlay' | reflexivity | reflexivity
      | exact Hca | exact Hpa | exact Hcna | exact Hpna
      | exact Hsize | exact Heta | exact Hrest | lia ..|].
    rewrite (run_bind _ _ _ _ _ Hrest').
    eexists _, _. reflexivity.
Qed.

(** X7. An episode runs as long as the series last: from a cursor [c >= 1],
    a run of valid actions returns a reward for every step whenever the four
    series of the episode have at least [c + k] entries, [k] the number of
    steps; the cursor is [c + k] afterwards.  After [reset], a series of [n]
    hours so allows [n - 1] steps. *)
Theorem run_acts_within_series
    (w : world) (actions : list Z) (o : loc) (x : Q) (t : pytree)
    (c : Z) (ca pa cna pna : list Q) (s : Q) :
  _lastPonctualObservation (self w) = Some (Ref o) ->
  layout (fixed (self w)) (heap w) o x t ->
  counter (self w) = Some c ->
  hydrogen_storage (self w) = Some s ->
  consumption (self w) = Some ca -> production (self w) = Some pa ->
  consumption_norm (self w) = Some cna -> production_norm (self w) = Some pna ->
  ~ battery_size (fixed (self w)) == 0 ->
  ~ hydrogen_eta (fixed (self w)) == 0 ->
  Forall (fun a => a = 0 \/ a = 1 \/ a = 2)%Z actions ->
  (1 <= c)%Z ->
  (c + Z.of_nat (length actions)
   <= Z.min (Z.min (Z.of_nat (length ca)) (Z.of_nat (length pa)))
        (Z.min (Z.of_nat (length cna)) (Z.of_nat (length pna))))%Z ->
  exists rewards w',
    run_acts actions w = (Return rewards, w')
    /\ length rewards = length actions
    /\ counter (self w') = Some (c + Z.of_nat (length actions))%Z.
Proof.
  intros Hattr Hlay Hc Hs Hca Hpa Hcna Hpna Hsize Heta Hvalid Hc1 Hlen.
  destruct w as [e h]. cbn [self heap] in *.
  destruct (run_acts_within_series_aux actions e h o x t c ca pa cna pna s)
    as (rewards & w' & Hrun); try assumption; try lia.
  exists rewards, w'. split; [exact Hrun|].
  destruct (run_acts_counter actions _ w' rewards c Hrun Hc) as [Hc' Hl].
  auto.
Qed.

(** ** Before the first [reset], and empty or short files *)

Lemma init_with_unset d p files store0 w :
  init_with d p files store0 = Return w ->
  counter (self w) = None /\ hydrogen_storage (self w) = None
  /\ consumption (self w) = None /\ production (self w) = None
  /\ consumption_norm (self w) = None /\ production_norm (self w) = None.
Proof.
  unfold init_with.
  match goal with
  | |- context [match ?x with (_, _) => _ end] => destruct x as [[obs dims] h]
  end.
  repeat match goal with
         | |- context [match ?o with Some _ => _ | None => _ end] => destruct o; [|done]
         end.
  intros [= <-]. repeat split.
Qed.

(** X8. [act] before the first [reset] raises AttributeError and changes
    nothing: the constructor leaves [consumption] unassigned. *)
Theorem act_before_reset_raises
    (d p : Z) (files : data_files) (store0 : gmap loc (list val))
    (w0 : world) (action : Z) :
  init_with d p files store0 = Return w0 ->
  act action w0 = (Raise AttributeError, w0).
Proof.
  intros Hinit.
  destruct (init_with_unset _ _ _ _ _ Hinit) as (_ & _ & Hca & _).
  unfold act, act_hydrogen.
  rewrite bind_assoc. raise_step. reflexivity.
Qed.

Lemma np_slice_nil lo hi : np_slice [] lo hi = [].
Proof. unfold np_slice. rewrite drop_nil. apply take_nil. Qed.

(** X9. The constructor raises ValueError exactly when a training file is
    empty ([min] of an empty sequence, lines 62 and 80); the test files may
    be empty. *)
Theorem init_with_fails_iff_empty_training
    (d p : Z) (files : data_files) (store0 : gmap loc (list val)) :
  (cons_train_npy files = [] \/ prod_train_npy files = []
   -> init_with d p files store0 = Raise ValueError)
  /\ (cons_train_npy files <> [] /\ prod_train_npy files <> []
      -> exists w, init_with d p files store0 = Return w).
Proof.
  split.
  - intros Hempty. unfold init_with.
    match goal with
    | |- context [match ?x with (_, _) => _ end] => destruct x as [[obs dims] h]
    end.
    destruct Hempty as [-> | ->].
    + rewrite np_slice_nil. reflexivity.
    + rewrite (np_slice_nil 0 (1 * 365 * 24)). cbn [map py_min_seq].
      destruct (py_min_seq _); [|reflexivity].
      destruct (py_max_seq _); reflexivity.
  - intros [Hc Hp]. now apply init_with_returns.
Qed.

(** ** The data the constructor prepares *)

Lemma fold_min_spec (rest : list Q) (x : Q) :
  let m := fold_left (fun m y => if Qlt_bool y m then y else m) rest x in
  m <= x /\ Forall (fun y => m <= y) rest /\ In m (x :: rest).
Proof.
  revert x. induction rest as [|y rest IH]; intros x; cbn [fold_left].
  - split; [lra|]. split; [constructor | now left].
  - destruct (Qlt_bool y x) eqn:Hlt.
    + apply Qlt_bool_iff in Hlt.
      destruct (IH y) as (H1 & H2 & H3).
      split; [lra|]. split; [constructor; assumption|].
      destruct H3 as [<- | H3]; [right; now left | right; now right].
    + apply Qlt_bool_false in Hlt.
      destruct (IH x) as (H1 & H2 & H3).
      split; [exact H1|]. split; [constructor; [lra | assumption]|].
      destruct H3 as [<- | H3]; [now left | right; now right].
Qed.

Lemma fold_max_spec (rest : list Q) (x : Q) :
  let m := fold_left (fun m y => if Qlt_bool m y then y else m) rest x in
  x <= m /\ Forall (fun y => y <= m) rest /\ In m (x :: rest).
Proof.
  revert x. induction rest as [|y rest IH]; intros x; cbn [fold_left].
  - split; [lra|]. split; [constructor | now left].
  - destruct (Qlt_bool x y) eqn:Hlt.
    + apply Qlt_bool_iff in Hlt.
      destruct (IH y) as (H1 & H2 & H3).
      split; [lra|]. split; [constructor; assumption|].
      destruct H3 as [<- | H3]; [right; now left | right; now right].
    + apply Qlt_bool_false in Hlt.
      destruct (IH x) as (H1 & H2 & H3).
      split; [exact H1|]. split; [constructor; [lra | assumption]|].
      destruct H3 as [<- | H3]; [now left | right; now right].
Qed.

Lemma py_min_seq_spec (a : list Q) (m : Q) :
  py_min_seq a = Some m -> Forall (fun y => m <= y) a /\ In m a.
Proof.
  destruct a as [|x rest]; [done|]. intros [= <-].
  destruct (fold_min_spec rest x) as (H1 & H2 & H3).
  split; [constructor; assumption | exact H3].
Qed.

Lemma py_max_seq_spec (a : list Q) (m : Q) :
  py_max_seq a = Some m -> Forall (fun y => y <= m) a /\ In m a.
Proof.
  destruct a as [|x rest]; [done|]. intros [= <-].
  destruct (fold_max_spec rest x) as (H1 & H2 & H3).
  split; [constructor; assumption | exact H3].
Qed.

Lemma init_with_data d p files store0 w :
  init_with d p files store0 = Return w ->
  let fx := fixed (self w) in
  consumption_train_norm fx = np_slice (cons_train_npy files) 0 (1 * 365 * 24)
  /\ consumption_valid_norm fx
     = np_slice (cons_train_npy files) (365 * 24) (2 * 365 * 24)
  /\ consumption_test_norm fx = np_slice (cons_test_npy files) 0 (1 * 365 * 24)
  /\ production_train_norm fx = np_slice (prod_train_npy files) 0 (1 * 365 * 24)
  /\ production_valid_norm fx
     = np_slice (prod_train_npy files) (365 * 24) (2 * 365 * 24)
  /\ production_test_norm fx = np_slice (prod_test_npy files) 0 (1 * 365 * 24)
  /\ consumption_train fx = map (fun x => x * 2.1) (consumption_train_norm fx)
  /\ consumption_valid fx = map (fun x => x * 2.1) (consumption_valid_norm fx)
  /\ consumption_test fx = map (fun x => x * 2.1) (consumption_test_norm fx)
  /\ production_train fx
     = map (fun x => x * 12000 / 1000 * 1) (production_train_norm fx)
  /\ production_valid fx
     = map (fun x => x * 12000 / 1000 * 1) (production_valid_norm fx)
  /\ production_test fx
     = map (fun x => x * 12000 / 1000 * 1) (production_test_norm fx)
  /\ py_min_seq (consumption_train fx) = Some (min_consumption fx)
  /\ py_max_seq (consumption_train fx) = Some (max_consumption fx)
  /\ py_min_seq (production_train fx) = Some (min_production fx)
  /\ py_max_seq (production_train fx) = Some (max_production fx).
Proof.
  unfold init_with.
  match goal with
  | |- context [match ?x with (_, _) => _ end] => destruct x as [[obs dims] h]
  end.
  destruct (py_min_seq (map _ (np_slice (cons_train_npy files) _ _))) eqn:E1; [|done].
  destruct (py_max_seq (map _ (np_slice (cons_train_npy files) _ _))) eqn:E2; [|done].
  destruct (py_min_seq (map _ (np_slice (prod_train_npy files) _ _))) eqn:E3; [|done].
  destruct (py_max_seq (map _ (np_slice (prod_train_npy files) _ _))) eqn:E4; [|done].
  intros [= <-]. cbn. repeat split; assumption.
Qed.

(** X10. [min_consumption] and [max_consumption] are the least and the
    greatest value of the scaled training consumption, and values of that
    series; likewise [min_production] and [max_production] for the
    production. *)
Theorem init_with_min_max_bound_training
    (d p : Z) (files : data_files) (store0 : gmap loc (list val)) (w : world) :
  init_with d p files store0 = Return w ->
  let fx := fixed (self w) in
  Forall (fun v => min_consumption fx <= v <= max_consumption fx)
    (consumption_train fx)
  /\ In (min_consumption fx) (consumption_train fx)
  /\ In (max_consumption fx) (consumption_train fx)
  /\ Forall (fun v => min_production fx <= v <= max_production fx)
       (production_train fx)
  /\ In (min_production fx) (production_train fx)
  /\ In (max_production fx) (production_train fx).
Proof.
  intros Hinit fx.
  destruct (init_with_data _ _ _ _ _ Hinit)
    as (_ & _ & _ & _ & _ & _ & _ & _ & _ & _ & _ & _ & E1 & E2 & E3 & E4).
  fold fx in E1, E2, E3, E4.
  destruct (py_min_seq_spec _ _ E1) as [A1 B1].
  destruct (py_max_seq_spec _ _ E2) as [A2 B2].
  destruct (py_min_seq_spec _ _ E3) as [A3 B3].
  destruct (py_max_seq_spec _ _ E4) as [A4 B4].
  repeat split; try assumption.
  - rewrite Forall_forall in *. intros v Hv. split; auto.
  - rewrite Forall_forall in *. intros v Hv. split; auto.
Qed.

Lemma np_slice_nonneg (a : list Q) (lo hi : Z) :
  (0 <= lo <= hi)%Z ->
  np_slice a lo hi = take (Z.to_nat (hi - lo)) (drop (Z.to_nat lo) a).
Proof.
  intros Hlh. unfold np_slice, slice_bound.
  destruct (Z.ltb_spec lo 0); [lia|].
  destruct (Z.ltb_spec hi 0); [lia|].
  set (n := Z.of_nat (length a)).
  destruct (Z.le_gt_cases n lo) as [Hge | Hlt].
  - rewrite (drop_ge a (Z.to_nat (Z.min lo n))) by lia.
    rewrite (drop_ge a (Z.to_nat lo)) by lia.
    now rewrite !take_nil.
  - rewrite (Z.min_l lo n) by lia.
    destruct (Z.le_gt_cases hi n) as [Hhi | Hhi].
    + now rewrite Z.min_l by lia.
    + rewrite Z.min_r by lia.
      rewrite !take_ge; [reflexivity | |]; rewrite length_drop; lia.
Qed.

Lemma take_add_drop {A} (n m : nat) (l : list A) :
  take n l ++ take m (drop n l) = take (n + m) l.
Proof.
  revert l. induction n as [|n IH]; intros [|x l]; cbn;
    rewrite ?take_nil; try reflexivity.
  now rewrite IH.
Qed.

(** X11. The training and the validation series are the first and the
    second year of the training file: one after the other they give its
    first 17520 entries, so they never overlap; each split has at most
    8760 entries, and the physical series have the lengths of the
    normalised ones. *)
Theorem init_with_splits_training_file
    (d p : Z) (files : data_files) (store0 : gmap loc (list val)) (w : world) :
  init_with d p files store0 = Return w ->
  let fx := fixed (self w) in
  consumption_train_norm fx ++ consumption_valid_norm fx
  = take (2 * (365 * 24)) (cons_train_npy files)
  /\ production_train_norm fx ++ production_valid_norm fx
     = take (2 * (365 * 24)) (prod_train_npy files)
  /\ consumption_train_norm fx = take (365 * 24) (cons_train_npy files)
  /\ consumption_test_norm fx = take (365 * 24) (cons_test_npy files)
  /\ length (consumption_train fx) = length (consumption_train_norm fx)
  /\ length (consumption_valid fx) = length (consumption_valid_norm fx)
  /\ length (production_train fx) = length (production_train_norm fx)
  /\ length (production_valid fx) = length (production_valid_norm fx)
  /\ length (consumption_valid_norm fx)
     = Nat.min (365 * 24) (length (cons_train_npy files) - 365 * 24).
Proof.
  intros Hinit fx.
  destruct (init_with_data _ _ _ _ _ Hinit)
    as (E1 & E2 & E3 & E4 & E5 & E6 & E7 & E8 & _ & E10 & E11 & _).
  fold fx in E1, E2, E3, E4, E5, E6, E7, E8, E10, E11.
  rewrite E7, E8, E10, E11, !length_map.
  rewrite E1, E2, E3, E4, E5.
  rewrite !np_slice_nonneg by lia.
  change (Z.to_nat 0) with 0%nat. rewrite !drop_0.
  replace (Z.to_nat (1 * 365 * 24 - 0)) with (365 * 24)%nat by lia.
  replace (Z.to_nat (2 * 365 * 24 - 365 * 24)) with (365 * 24)%nat by lia.
  replace (Z.to_nat (365 * 24)) with (365 * 24)%nat by lia.
  rewrite !take_add_drop.
  replace (365 * 24 + 365 * 24)%nat with (2 * (365 * 24))%nat by lia.
  repeat split; try reflexivity.
  rewrite length_take, length_drop. lia.
Qed.

Lemma reset_attrs mode w :
  exists e1,
    self (snd (reset mode w))
    = bind_series mode (set_hydrogen_storage 0 (set_counter 1 e1))
    /\ (e1 = self w \/ exists o, e1 = set__lastPonctualObservation o (self w)).
Proof.
  destruct w as [e h].
  destruct (reset_any mode e h) as (v & e1 & h' & -> & He1).
  exists e1. split; [reflexivity | exact He1].
Qed.

(** X12. A training file of at most one year leaves the validation series
    empty, and the first step of a validation episode then raises
    IndexError at line 155, with nothing changed. *)
Theorem validation_episode_needs_second_year
    (d p : Z) (files : data_files) (store0 : gmap loc (list val))
    (w0 w1 : world) (mode : pyint) (v : outcome val) (action : Z) :
  init_with d p files store0 = Return w0 ->
  (length (cons_train_npy files) <= 365 * 24)%nat ->
  int_of mode = 0%Z ->
  reset mode w0 = (v, w1) ->
  consumption (self w1) = Some []
  /\ act action w1 = (Raise IndexError, w1).
Proof.
  intros Hinit Hlen Hmode Hreset.
  destruct (init_with_data _ _ _ _ _ Hinit)
    as (_ & E2 & _ & _ & _ & _ & _ & E8 & _).
  destruct (reset_attrs mode w0) as (e1 & Hself & He1).
  rewrite Hreset in Hself. cbn [snd] in Hself.
  assert (Hfixed : fixed e1 = fixed (self w0))
    by (destruct He1 as [->|[o ->]]; reflexivity).
  assert (Hvalid : consumption_valid (fixed (self w0)) = []).
  { rewrite E8, E2, np_slice_nonneg by lia.
    rewrite drop_ge by lia. now rewrite take_nil. }
  assert (Hca : consumption (self w1) = Some []).
  { rewrite Hself. unfold bind_series, py_eq_int. rewrite Hmode.
    cbn [Z.eqb consumption set_consumption fixed set_hydrogen_storage set_counter].
    now rewrite Hfixed, Hvalid. }
  assert (Hc : counter (self w1) = Some 1%Z).
  { rewrite Hself. unfold bind_series, py_eq_int. rewrite Hmode. reflexivity. }
  split; [exact Hca|].
  eapply act_index_error_line_155; [exact Hca | exact Hc | cbn; lia].
Qed.

(** ** [observe] among the other calls *)

(** X13. [observe] changes neither an attribute nor any list object that
    exists when it is called: it only adds the objects of the copy it
    returns. *)
Theorem observe_changes_nothing
    (w : world) (o : loc) (x : Q) (t : pytree) :
  _lastPonctualObservation (self w) = Some (Ref o) ->
  layout (fixed (self w)) (heap w) o x t ->
  exists y w',
    observe w = (Return (Ref y), w')
    /\ self w' = self w
    /\ heap w ⊆ heap w'
    /\ heap w !! y = None.
Proof.
  intros Hattr Hlay. destruct w as [e h]. cbn [self heap] in *.
  destruct (observe_run e h o x t Hattr Hlay) as (y & h' & Hrun & Hlay' & Hsub & Hfresh).
  exists y. eexists. split; [exact Hrun|]. cbn [self heap].
  split; [reflexivity|]. split; [exact Hsub|].
  destruct (layout_head _ _ _ _ _ Hlay') as [items Hy].
  rewrite (locs_of_list 1 h' y _ Hy) in Hfresh.
  now inversion Hfresh.
Qed.

(** X14. Before the first [reset], [observe] returns the observation of
    the constructor, in which every number is 0, the battery level
    included; [reset] is what sets the level to 1. *)
Theorem observe_after_construction
    (d p : Z) (files : data_files) (store0 : gmap loc (list val)) (w0 : world) :
  init_with d p files store0 = Return w0 ->
  (d = 1 /\ p = 1 \/ d = 1 /\ p = 0 \/ d = 0 /\ p = 0)%Z ->
  exists y w t,
    observe w0 = (Return (Ref y), w)
    /\ tree_of 2 (heap w) (Ref y) = Some t
    /\ all_zero t = true
    /\ battery_level w0 = Some 0.
Proof.
  intros Hinit Hflags.
  destruct (init_with_constructed _ _ _ _ _ Hinit) as [Hd Hp _ _ _ _ _ _ Hobs].
  assert (Hb : ((d =? 1) && (p =? 1) || (d =? 1) && (p =? 0)
                || (d =? 0) && (p =? 0))%Z = true)
    by (destruct Hflags as [[-> ->] | [[-> ->] | [-> ->]]]; reflexivity).
  rewrite Hb in Hobs. destruct Hobs as (o & Hattr & Hlay).
  destruct w0 as [e h]. cbn [self heap] in *.
  destruct (observe_run e h o 0 _ Hattr Hlay) as (y & h' & Hrun & Hlay' & _).
  exists y. eexists. eexists. split; [exact Hrun|].
  split; [exact (layout_tree _ _ _ _ _ Hlay')|].
  split.
  - unfold observation_initial. rewrite Hd, Hp.
    destruct Hflags as [[-> ->] | [[-> ->] | [-> ->]]]; reflexivity.
  - eapply (layout_battery_level {| self := e; heap := h |}); eassumption.
Qed.

(** X15. After a step that returns, [observe] gives the observation the
    step has put together: the new battery level, the normalised
    consumption and production at the cursor of the step, and the optional
    slots. *)
Theorem observe_after_act
    (w : world) (action : Z) (o : loc) (x : Q) (t : pytree)
    (c : Z) (cons prod cn pn : Q) (pna : list Q) (s : Q) :
  _lastPonctualObservation (self w) = Some (Ref o) ->
  layout (fixed (self w)) (heap w) o x t ->
  in_range (self w) c cons prod cn pn pna s ->
  ~ battery_size (fixed (self w)) == 0 ->
  ~ hydrogen_eta (fixed (self w)) == 0 ->
  (action = 0 \/ action = 1 \/ action = 2)%Z ->
  let fx := fixed (self w) in
  let need := cons - prod + true_energy_avail_from_hydrogen fx action in
  let x' := level_after need x (battery_size fx) (battery_eta fx) in
  exists reward w1 y w2,
    act action w = (Return reward, w1)
    /\ observe w1 = (Return (Ref y), w2)
    /\ tree_of 2 (heap w2) (Ref y)
       = Some (observation_after fx x' cn pn c pna)
    /\ self w2 = self w1.
Proof.
  intros Hattr Hlay Hrange Hsize Heta Haction fx need x'.
  destruct w as [e h]. subst fx need x'. cbn [self heap] in *.
  destruct (act_run e h o x t action c cons prod cn pn pna s
              Hattr Hlay Hrange Hsize Heta Haction) as (h1 & Hrun & Hlay1).
  match type of Hrun with
  | _ = (_, {| self := ?e1; heap := _ |}) =>
      destruct (observe_run e1 h1 o _ _ Hattr Hlay1) as (y & h2 & Hobs & Hlay2 & _)
  end.
  eexists _, _, y, _. split; [exact Hrun|]. split; [exact Hobs|].
  split; [exact (layout_tree _ _ _ _ _ Hlay2) | reflexivity].
Qed.

(** ** The configuration along an episode *)

Lemma act_keeps_fixed action w :
  fixed (self (snd (act action w))) = fixed (self w).
Proof.
  destruct w as [e h].
  destruct (act_hydrogen_frame action e h) as (out & e' & Hhyd & He').
  assert (Hfixed : fixed e' = fixed e)
    by (destruct He' as [->|[s ->]]; reflexivity).
  unfold act. destruct out as [[need reward]|err];
    [rewrite (run_bind _ _ _ _ _ Hhyd) | now rewrite (run_bind_raise _ _ _ _ _ Hhyd)].
  unfold bind at 1.
  pose proof (keeps_self_act_battery need reward {| self := e'; heap := h |}) as Hbat.
  destruct (act_battery need reward _) as [[reward'|err] w2];
    cbn [snd self] in *; [|now rewrite Hbat].
  unfold bind at 1.
  pose proof (keeps_self_act_observation w2) as Hobs.
  destruct (act_observation w2) as [[[]|err] w3];
    cbn [snd] in *; [|now rewrite Hobs, Hbat].
  unfold bind, getattr, setattr, ret.
  destruct (counter (self w3)); cbn [snd self fixed set_counter];
    now rewrite Hobs, Hbat.
Qed.

Lemma observe_keeps_self w : self (snd (observe w)) = self w.
Proof.
  unfold observe, bind, getattr.
  destruct (_lastPonctualObservation (self w)); [|reflexivity].
  destruct (deepcopy _ _ _ _) as [[[y memo] h]|err]; reflexivity.
Qed.

Lemma reset_keeps_fixed mode w :
  fixed (self (snd (reset mode w))) = fixed (self w).
Proof.
  destruct (reset_attrs mode w) as (e1 & -> & He1).
  rewrite fixed_bind_series.
  destruct He1 as [->|[o ->]]; reflexivity.
Qed.

Lemma reachable_fixed w0 w :
  reachable w0 w -> fixed (self w) = fixed (self w0).
Proof.
  induction 1 as [mode | w action _ IH | w _ IH | w mode _ IH].
  - apply reset_keeps_fixed.
  - now rewrite act_keeps_fixed.
  - now rewrite observe_keeps_self.
  - now rewrite reset_keeps_fixed.
Qed.

Lemma layout_components fx h o x t :
  layout fx h o x t ->
  exists items,
    t = PList items
    /\ length items
       = (2 + (if (_dist_equinox fx =? 1)%Z then 1 else 0)
            + (if (_pred fx =? 1)%Z then 1 else 0))%nat.
Proof.
  destruct 1 as [r a b Hd Hp | r a b s Hd Hp | r a b s r2 f1 f2 Hd Hp];
    rewrite Hd, Hp; eexists; split; reflexivity.
Qed.

(** X16. Throughout an episode the observation keeps the shape announced
    by [inputDimensions]: at every world reached from a constructed object,
    [inputDimensions()] returns the list of the constructor, the observation
    has one component per entry of it, and [nActions()] is 3. *)
Theorem observation_matches_inputDimensions
    (d p : Z) (files : data_files) (store0 : gmap loc (list val))
    (w0 w : world) :
  init_with d p files store0 = Return w0 ->
  (d = 1 /\ p = 1 \/ d = 1 /\ p = 0 \/ d = 0 /\ p = 0)%Z ->
  reachable w0 w ->
  exists dims items,
    inputDimensions w = (Return dims, w)
    /\ inputDimensions w0 = (Return dims, w0)
    /\ observation w = Some (PList items)
    /\ length items = length dims
    /\ nActions w = (Return 3%Z, w).
Proof.
  intros Hinit Hflags Hreach.
  apply init_with_constructed in Hinit.
  destruct (reachable_ready d p w0 w Hinit Hflags Hreach)
    as [x [(o & t & Hattr & Hlay) _ _ _ _]].
  pose proof (reachable_fixed w0 w Hreach) as Hfixed.
  destruct Hinit as [Hd Hp Hn _ _ _ _ Hdims _].
  destruct (layout_components _ _ _ _ _ Hlay) as (items & -> & Hlen).
  rewrite Hfixed, Hd, Hp in Hlen.
  unfold inputDimensions, nActions, getfixed. rewrite Hfixed, Hdims, Hn.
  destruct Hflags as [[-> ->] | [[-> ->] | [-> ->]]];
    cbn [Z.eqb Pos.eqb andb] in *;
    eexists _, items;
    (split; [reflexivity|]); (split; [reflexivity|]);
    (split; [eapply layout_observation; eassumption|]);
    (split; [exact Hlen | reflexivity]).
Qed.

(** ** Forecasts near the end of the series *)

Lemma np_slice_clipped (a : list Q) (c : Z) (k : nat) :
  (0 <= c)%Z -> (Z.of_nat (length a) <= c + Z.of_nat k)%Z ->
  np_slice a c (c + Z.of_nat k) = drop (Z.to_nat c) a.
Proof.
  intros Hc Hlen. rewrite np_slice_nonneg by lia.
  apply take_ge. rewrite length_drop. lia.
Qed.

(** X17. With the forecasts switched on, a step within 24 hours of the end
    of the series raises nothing: the slices of lines 206-207 are clipped,
    so both forecast slots hold the sum of the production that remains,
    divided by 24 and by 48, and no longer a mean over 24 or 48 values. *)
Theorem act_forecast_near_end_is_clipped
    (w : world) (action : Z) (o : loc) (x : Q) (t : pytree)
    (c : Z) (cons prod cn pn : Q) (pna : list Q) (s : Q) :
  _lastPonctualObservation (self w) = Some (Ref o) ->
  layout (fixed (self w)) (heap w) o x t ->
  in_range (self w) c cons prod cn pn pna s ->
  ~ battery_size (fixed (self w)) == 0 ->
  ~ hydrogen_eta (fixed (self w)) == 0 ->
  (action = 0 \/ action = 1 \/ action = 2)%Z ->
  _dist_equinox (fixed (self w)) = 1%Z ->
  _pred (fixed (self w)) = 1%Z ->
  (0 <= c)%Z ->
  (Z.of_nat (length pna) < c + 24)%Z ->
  let fx := fixed (self w) in
  let need := cons - prod + true_energy_avail_from_hydrogen fx action in
  let x' := level_after need x (battery_size fx) (battery_eta fx) in
  let rest := drop (Z.to_nat c) pna in
  exists reward w',
    act action w = (Return reward, w')
    /\ observation w'
       = Some (PList [PNum x'; PList [PNum cn; PNum pn]; PNum (seasonal c);
                      PList [PNum (py_sum rest / 24); PNum (py_sum rest / 48)]])
    /\ (length rest < 24)%nat.
Proof.
  intros Hattr Hlay Hrange Hsize Heta Haction Hd Hp Hc Hlen fx need x' rest.
  assert (Hpn : np_index pna c = Some pn) by (destruct Hrange; assumption).
  assert (Hlt : (c < Z.of_nat (length pna))%Z).
  { destruct (Z.lt_ge_cases c (Z.of_nat (length pna))) as [?|Hge]; [assumption|].
    rewrite np_index_beyond in Hpn by lia. discriminate. }
  destruct w as [e h]. subst fx need x' rest. cbn [self heap] in *.
  destruct (act_run e h o x t action c cons prod cn pn pna s
              Hattr Hlay Hrange Hsize Heta Haction) as (h' & Hrun & Hlay').
  eexists _, _. split; [exact Hrun|].
  split.
  - erewrite layout_observation; [|exact Hattr|exact Hlay'].
    unfold observation_after. rewrite Hd, Hp. cbn [Z.eqb Pos.eqb app].
    pose proof (np_slice_clipped pna c 24 Hc ltac:(lia)) as E24.
    pose proof (np_slice_clipped pna c 48 Hc ltac:(lia)) as E48.
    change (Z.of_nat 24) with 24%Z in E24. change (Z.of_nat 48) with 48%Z in E48.
    rewrite E24, E48. reflexivity.
  - rewrite length_drop. lia.
Qed.

(** ** The cursor and the value of [reset] *)

Lemma act_counter_any action w :
  counter (self (snd (act action w))) = counter (self w)
  \/ exists c, counter (self w) = Some c
               /\ counter (self (snd (act action w))) = Some (c + 1)%Z.
Proof.
  destruct w as [e h].
  destruct (act_hydrogen_frame action e h) as (out & e' & Hhyd & He').
  assert (Hcounter : counter e' = counter e)
    by (destruct He' as [->|[s ->]]; reflexivity).
  remember (act action {| self := e; heap := h |}) as res eqn:Hres.
  unfold act in Hres. cbn [self].
  destruct out as [[need reward]|err];
    [rewrite (run_bind _ _ _ _ _ Hhyd) in Hres
    | rewrite (run_bind_raise _ _ _ _ _ Hhyd) in Hres; subst res; now left].
  unfold bind at 1 in Hres.
  pose proof (keeps_self_act_battery need reward {| self := e'; heap := h |}) as Hbat.
  destruct (act_battery need reward _) as [[reward'|err] w2];
    cbn [snd self] in *; [|subst res; left; cbn [snd]; now rewrite Hbat].
  unfold bind at 1 in Hres.
  pose proof (keeps_self_act_observation w2) as Hobs.
  destruct (act_observation w2) as [[[]|err] w3];
    cbn [snd] in *; [|subst res; left; cbn [snd]; now rewrite Hobs, Hbat].
  unfold bind, getattr, setattr, ret in Hres.
  destruct (counter (self w3)) as [c|] eqn:Hc; subst res;
    cbn [snd self counter set_counter].
  - right. exists c. rewrite Hobs, Hbat, Hcounter in Hc. auto.
  - left. rewrite Hobs, Hbat. exact Hcounter.
Qed.

Lemma reset_counter mode w : counter (self (snd (reset mode w))) = Some 1%Z.
Proof.
  destruct (reset_attrs mode w) as (e1 & -> & _).
  unfold bind_series.
  destruct (py_eq_int mode (-1)); [|destruct (py_eq_int mode 0)]; reflexivity.
Qed.

(** X18. The cursor is at least 1 at every world of an episode, whatever
    the flags: [reset] sets it to 1 and [act] leaves it or adds 1.  Line 155
    so never reads index -1, which NumPy would take from the end of the
    series. *)
Theorem cursor_at_least_one (w0 w : world) :
  reachable w0 w ->
  exists c, counter (self w) = Some c /\ (1 <= c)%Z.
Proof.
  induction 1 as [mode | w action _ (c & Hc & Hge) | w _ (c & Hc & Hge)
                 | w mode _ _].
  - exists 1%Z. split; [apply reset_counter | lia].
  - destruct (act_counter_any action w) as [Heq | (c' & Hc' & Hnew)].
    + exists c. split; [congruence | exact Hge].
    + exists (c + 1)%Z. split; [congruence | lia].
  - exists c. split; [now rewrite observe_keeps_self | exact Hge].
  - exists 1%Z. split; [apply reset_counter | lia].
Qed.

Lemma reset_run_separate e h mode :
  supported (fixed e) ->
  exists o ret h1 h',
    reset mode {| self := e; heap := h |}
    = (Return (Ref ret),
       {| self := bind_series mode
                    (set_hydrogen_storage 0
                       (set_counter 1 (set__lastPonctualObservation (Ref o) e)));
          heap := h' |})
    /\ layout (fixed e) h1 o 1 (observation_initial (fixed e) 1)
    /\ h1 ⊆ h' /\ h1 !! ret = None
    /\ tree_of 3 h' (Ref ret) = Some (observation_returned (fixed e)).
Proof.
  intros Hsup. unfold reset.
  destruct (reset_observation_run e h Hsup) as (o & h1 & Hobs & Hlay & Hsub1 & Ho).
  rewrite (run_bind _ _ _ _ _ Hobs).
  do 2 attr_step.
  rewrite (run_bind _ _ _ _ _ (reset_series_run _ _ _)).
  match goal with
  | |- context [reset_return {| self := ?e'; heap := _ |}] =>
      destruct (reset_return_run e' h1) as (ret & h2 & Hret & Htree & Hsub2 & Hfresh)
  end.
  { rewrite fixed_bind_series. exact Hsup. }
  rewrite Hret. exists o, ret, h1, h2. split; [reflexivity|].
  split; [exact Hlay|]. split; [exact Hsub2|]. split; [exact Hfresh|].
  rewrite Htree, fixed_bind_series. reflexivity.
Qed.

(** X19. The value [reset] returns is an object of its own, of another
    shape than the observation the environment keeps: its second component
    is a history of 12 pairs where the stored observation has one pair, and
    overwriting it leaves the stored observation, with its full battery, as
    it is. *)
Theorem reset_returns_separate_value (w : world) (mode : pyint) :
  supported (fixed (self w)) ->
  exists ret w' rest rest',
    reset mode w = (Return (Ref ret), w')
    /\ tree_of 3 (heap w') (Ref ret)
       = Some (PList (PNum 0 :: PList (replicate 12 (PList [PNum 0; PNum 0]))
                      :: rest))
    /\ observation w' = Some (PList (PNum 1 :: PList [PNum 0; PNum 0] :: rest'))
    /\ forall items,
         observation {| self := self w'; heap := <[ret := items]> (heap w') |}
         = observation w'.
Proof.
  intros Hflags. destruct w as [e h]. cbn [self heap] in *.
  destruct (reset_run_separate e h mode Hflags)
    as (o & ret & h1 & h' & Hrun & Hlay & Hsub & Hfresh & Htree).
  exists ret. eexists. eexists. eexists. split; [exact Hrun|].
  split; [exact Htree|].
  assert (Hobs : forall h2, h1 ⊆ h2 ->
            observation
              {| self := bind_series mode
                           (set_hydrogen_storage 0
                              (set_counter 1 (set__lastPonctualObservation (Ref o) e)));
                 heap := h2 |}
            = Some (observation_initial (fixed e) 1)).
  { intros h2 Hh2. eapply layout_observation; cbn [self heap].
    - rewrite obs_bind_series. reflexivity.
    - rewrite fixed_bind_series. eapply layout_weaken; eassumption. }
  split; [now apply Hobs|].
  intros items. cbn [self heap]. rewrite !Hobs; [reflexivity | exact Hsub |].
  now apply subseteq_insert_unallocated.
Qed.

(** ** The seasonal feature *)

Lemma seasonal_bounds (c : Z) :
  (0 <= c <= 365 * 24)%Z -> 0 <= seasonal c <= 1.
Proof.
  intros [Hlo Hhi]. unfold seasonal.
  assert (H0 : 0 <= inject_Z c).
  { change 0 with (inject_Z 0). now rewrite <- Zle_Qle. }
  assert (H1 : inject_Z c <= 8760).
  { change 8760 with (inject_Z (365 * 24)). now rewrite <- Zle_Qle. }
  set (q := inject_Z c) in *. clearbody q.
  assert (L : 0 <= q / 24) by (apply Qle_shift_div_l; lra).
  assert (U : q / 24 <= 365) by (apply Qle_shift_div_r; lra).
  set (r := q / 24) in *. clearbody r.
  assert (Habs : 0 <= Qabs (r - (365 # 2)) <= (365 # 2)).
  { split; [apply Qabs_nonneg|].
    apply Qabs_Qle_condition. split; lra. }
  change (365 / 2) with (365 # 2).
  set (a := Qabs (r - (365 # 2))) in *. clearbody a.
  split.
  - apply Qle_shift_div_l; lra.
  - apply Qle_shift_div_r; lra.
Qed.

Lemma seasonal_zero (c : Z) : seasonal c == 0 <-> c = 4380%Z.
Proof.
  unfold seasonal. split.
  - intros H.
    assert (Ha : Qabs (inject_Z c / 24 - 365 / 2) == 0).
    { set (a := Qabs (inject_Z c / 24 - 365 / 2)) in *. clearbody a.
      assert (E : (365 / 2) * (a / (365 / 2)) == a)
        by (apply Qmult_div_r; discriminate).
      rewrite <- E, H. reflexivity. }
    assert (Hq : inject_Z c == 4380).
    { pose proof (Qabs_Qle_condition (inject_Z c / 24 - 365 / 2) 0) as [Hc _].
      destruct Hc as [L U]; [rewrite Ha; apply Qle_refl|].
      assert (E : 24 * (inject_Z c / 24) == inject_Z c)
        by (apply Qmult_div_r; discriminate).
      change (365 / 2) with (365 # 2) in L, U.
      set (r := inject_Z c / 24) in *. clearbody r.
      rewrite <- E. change (- 0) with 0 in L. lra. }
    change 4380 with (inject_Z 4380) in Hq. now apply inject_Z_injective.
  - intros ->. reflexivity.
Qed.

(** X20. With the seasonal slot switched on, a step that returns writes
    |c/24 - 365/2| / (365/2) into it, a value between 0 and 1 for a cursor
    within one year of hours, and 0 exactly at hour 4380, the middle of the
    year. *)
Theorem act_seasonal_slot_in_unit_interval
    (w : world) (action : Z) (o : loc) (x : Q) (t : pytree)
    (c : Z) (cons prod cn pn : Q) (pna : list Q) (s : Q) :
  _lastPonctualObservation (self w) = Some (Ref o) ->
  layout (fixed (self w)) (heap w) o x t ->
  in_range (self w) c cons prod cn pn pna s ->
  ~ battery_size (fixed (self w)) == 0 ->
  ~ hydrogen_eta (fixed (self w)) == 0 ->
  (action = 0 \/ action = 1 \/ action = 2)%Z ->
  _dist_equinox (fixed (self w)) = 1%Z ->
  (0 <= c <= 365 * 24)%Z ->
  exists reward w' x' rest d,
    act action w = (Return reward, w')
    /\ observation w'
       = Some (PList (PNum x' :: PList [PNum cn; PNum pn] :: PNum d :: rest))
    /\ d = Qabs (inject_Z c / 24 - 365 / 2) / (365 / 2)
    /\ 0 <= d <= 1
    /\ (d == 0 <-> c = 4380%Z).
Proof.
  intros Hattr Hlay Hrange Hsize Heta Haction Hd Hc.
  destruct w as [e h]. cbn [self heap] in *.
  destruct (act_run e h o x t action c cons prod cn pn pna s
              Hattr Hlay Hrange Hsize Heta Haction) as (h' & Hrun & Hlay').
  eexists _, _, _, _, (seasonal c). split; [exact Hrun|].
  split; [|split; [reflexivity|split; [now apply seasonal_bounds|apply seasonal_zero]]].
  erewrite layout_observation; [|exact Hattr|exact Hlay'].
  unfold observation_after. rewrite Hd. cbn [Z.eqb Pos.eqb app]. reflexivity.
Qed.

(** * The theorems at the small data set *)

Ltac by_computing :=
  vm_compute; first [reflexivity | discriminate | tauto | (intros; discriminate)].

Lemma demo_ready_layout :
  _lastPonctualObservation (self demo_ready) = Some (Ref 4%positive)
  /\ layout (fixed (self demo_ready)) (heap demo_ready) 4%positive 1
       (PList [PNum 1; PList [PNum 0; PNum 0]]).
Proof.
  split; [by_computing|].
  eapply (layout_basic _ _ _ _ 3%positive); by_computing.
Defined.

Lemma demo_ready_full_layout :
  _lastPonctualObservation (self demo_ready_full) = Some (Ref 6%positive)
  /\ layout (fixed (self demo_ready_full)) (heap demo_ready_full) 6%positive 1
       (PList [PNum 1; PList [PNum 0; PNum 0]; PNum 0; PList [PNum 0; PNum 0]]).
Proof.
  split; [by_computing|].
  eapply (layout_forecast _ _ _ _ 4%positive _ _ _ 5%positive); by_computing.
Defined.

Lemma demo_ready_in_range :
  in_range (self demo_ready) 1 (0.5 * 2.1) (0 * 12000 / 1000 * 1) 1 0.1
    [0; 0.1; 0.2; 0.3] 0.
Proof.
  constructor; try by_computing; eexists; split; by_computing.
Defined.

Lemma act_long_term_and_reward_witness :
  exists reward w',
    act 0 demo_ready = (Return reward, w')
    /\ hydrogen_storage (self w') = Some (0 + - (1.1 * 1))
    /\ reward == - 0.11.
Proof.
  destruct demo_ready_layout as [Hattr Hlay].
  destruct (act_long_term_and_reward demo_ready 0 4%positive 1 _ 1 _ _ _ _ _ 0
              Hattr Hlay demo_ready_in_range)
    as (_ & _ & _ & reward & w' & Hact & Hs & _ & _ & Hr);
    [by_computing | by_computing | by_computing | now left |].
  exists reward, w'. split; [exact Hact|]. split; [exact Hs|].
  apply Hr; by_computing.
Defined.

Lemma act_battery_covers_need_witness :
  exists reward w' x',
    act 0 demo_ready = (Return reward, w')
    /\ battery_level w' = Some x'
    /\ x' == 1 - (0.5 * 2.1 - 0 - 1.1 * 0.65) / 15
    /\ reward == - 0.11.
Proof.
  destruct demo_ready_layout as [Hattr Hlay].
  destruct (act_battery_covers_need demo_ready 0 4%positive 1 _ 1 _ _ _ _ _ 0
              Hattr Hlay demo_ready_in_range)
    as (reward & w' & x' & Hact & Hlevel & Hx' & Hr & _);
    [by_computing | by_computing | now left | by_computing | by_computing |].
  exists reward, w', x'. split; [exact Hact|]. split; [exact Hlevel|].
  split; [rewrite Hx'; by_computing | rewrite Hr; by_computing].
Defined.



Lemma battery_level_in_unit_interval_witness :
  exists x,
    battery_level (snd (act 0 (snd (reset (PInt (-1)) demo_object)))) = Some x
    /\ 0 <= x <= 1.
Proof.
  apply (battery_level_in_unit_interval 0 0 demo_files ∅ demo_object).
  - by_computing.
  - right; right; split; reflexivity.
  - apply reach_act, reach_reset.
Defined.

Lemma long_term_level_is_sum_of_changes_witness :
  exists s,
    hydrogen_storage (self (snd (run_acts [0; 2; 0]%Z demo_ready))) = Some s
    /\ s == - 1.1.
Proof.
  destruct (long_term_level_is_sum_of_changes 0 0 demo_files ∅
              demo_object demo_ready (snd (run_acts [0; 2; 0]%Z demo_ready))
              (PInt (-1)) (fst (reset (PInt (-1)) demo_object))
              [0; 2; 0]%Z [- (1.1 * 1) * 0.1; 1.1 * 1 * 0.1; - (1.1 * 1) * 0.1])
    as (_ & s & Hs & Hsum & _);
    [by_computing | apply surjective_pairing | by_computing |].
  exists s. split; [exact Hs|]. rewrite Hsum. by_computing.
Defined.

Lemma reset_state_and_returned_value_witness :
  exists ret w',
    reset (PBool false) demo_object = (Return (Ref ret), w')
    /\ battery_level w' = Some 1.
Proof.
  destruct (reset_state_and_returned_value demo_object (PBool false))
    as (ret & w' & Hrun & Hlevel & _);
    [right; right; split; by_computing|].
  exists ret, w'. split; assumption.
Defined.

Lemma init_with_layouts_witness :
  exists w,
    init_with 0 1 demo_files ∅ = Return w
    /\ inputDimensions w = (Raise AttributeError, w).
Proof.
  destruct (init_with_layouts 0 1 demo_files ∅)
    as (w & Hw & _ & _ & _ & _ & Hbad); [discriminate | discriminate |].
  exists w. split; [exact Hw|]. now apply Hbad.
Defined.

Lemma observe_twice_equal_and_copy_witness :
  exists y1 w1 y2 w2,
    observe demo_ready = (Return (Ref y1), w1)
    /\ observe w1 = (Return (Ref y2), w2)
    /\ tree_of 2 (heap w2) (Ref y1) = tree_of 2 (heap w2) (Ref y2).
Proof.
  destruct demo_ready_layout as [Hattr Hlay].
  destruct (observe_twice_equal_and_copy demo_ready 4%positive 1 _ Hattr Hlay)
    as (y1 & w1 & y2 & w2 & H1 & H2 & T1 & T2 & _).
  exists y1, w1, y2, w2. split; [exact H1|]. split; [exact H2|].
  now rewrite T1, T2.
Defined.

(** * Where the code departs from the specification *)

(** C3 as stated fails: after [reset(-1)] and one discharging step the
    level of the long-term storage is -1.1. *)
Lemma long_term_level_negative_after_discharge :
  ~ (forall w, reachable demo_object w ->
       exists s, hydrogen_storage (self w) = Some s /\ 0 <= s).
Proof.
  intros H.
  destruct (H (snd (act 0 (snd (reset (PInt (-1)) demo_object)))))
    as (s & Hs & Hpos); [apply reach_act, reach_reset|].
  vm_compute in Hs. injection Hs as <-. vm_compute in Hpos. now apply Hpos.
Qed.

(** C7 as stated fails: with seasonal off and forecast on the constructor
    raises nothing. *)
Lemma init_unsupported_pair_returns :
  ~ (exists e, init_with 0 1 demo_files ∅ = Raise e).
Proof. intros [e He]. vm_compute in He. discriminate. Qed.

(** C10 as stated fails: [False] is neither -1 nor 0 as a value, yet
    [reset(False)], the call [main] makes, binds the validation series and
    not the test series. *)
Lemma reset_False_binds_validation :
  ~ (forall mode, mode <> PInt (-1) -> mode <> PInt 0 ->
       production_norm (self (snd (reset mode year_object)))
       = Some (production_test_norm (fixed (self year_object)))).
Proof.
  intros H. specialize (H (PBool false)).
  assert (E : production_norm (self (snd (reset (PBool false) year_object)))
              = Some [0.2; 0.3])
    by (vm_compute; reflexivity).
  assert (E' : production_test_norm (fixed (self year_object)) = [0; 0; 0])
    by (vm_compute; reflexivity).
  rewrite E, E' in H. discriminate H; discriminate.
Qed.

(** * The further properties at the small data set *)

Lemma demo_last_state :
  exists x t,
    layout (fixed (self demo_last)) (heap demo_last) 4%positive x t.
Proof.
  eexists _, _. eapply (layout_basic _ _ _ _ 3%positive); by_computing.
Defined.

Lemma run_acts_advances_cursor_witness :
  counter (self (snd (run_acts [0; 2; 0]%Z demo_ready))) = Some 4%Z.
Proof.
  apply (run_acts_advances_cursor [0; 2; 0]%Z demo_ready
           (snd (run_acts [0; 2; 0]%Z demo_ready))
           [- (1.1 * 1) * 0.1; 1.1 * 1 * 0.1; - (1.1 * 1) * 0.1] 1);
    by_computing.
Defined.

Lemma act_at_end_of_series_mutates_then_raises_witness :
  exists w',
    act 2 demo_last = (Raise IndexError, w')
    /\ hydrogen_storage (self w')
       = Some (0 + diff_hydrogen (fixed (self demo_last)) 2)
    /\ counter (self w') = Some 4%Z.
Proof.
  destruct demo_last_state as (x & t & Hlay).
  destruct (act_at_end_of_series_mutates_then_raises demo_last 2 4%positive x t 4
              (map (fun x => x * 2.1) [0.5; 1; 0.25; 0.75])
              (map (fun x => x * 12000 / 1000 * 1) [0; 0.1; 0.2; 0.3])
              [0.5; 1; 0.25; 0.75] (0.75 * 2.1) (0.3 * 12000 / 1000 * 1) 0)
    as (w' & Hact & Hs & _ & _ & Hc);
    [by_computing | exact Hlay | by_computing .. | now right; right |].
  exists w'. split; [exact Hact|]. split; [exact Hs | exact Hc].
Defined.

Lemma act_past_the_end_changes_nothing_witness :
  act 1 demo_validation = (Raise IndexError, demo_validation).
Proof.
  apply (act_past_the_end_changes_nothing demo_validation 1 1 []); by_computing.
Defined.

Ltac in_range_by_computing :=
  constructor;
    [ by_computing | by_computing
    | eexists; split; by_computing | eexists; split; by_computing
    | eexists; split; by_computing | by_computing | by_computing ].

Lemma act_surplus_charges_battery_witness :
  exists reward w' x',
    act 1 demo_surplus = (Return reward, w')
    /\ battery_level w' = Some x'
    /\ x' == 0.9825
    /\ reward == 0.
Proof.
  assert (Hattr : _lastPonctualObservation (self demo_surplus)
                  = Some (Ref 4%positive)) by by_computing.
  eassert (Hlay : layout (fixed (self demo_surplus)) (heap demo_surplus)
                    4%positive _ _)
    by (eapply (layout_basic _ _ _ _ 3%positive); by_computing).
  assert (Hin : in_range (self demo_surplus) 3 (0.25 * 2.1)
                  (0.2 * 12000 / 1000 * 1) 0.75 0.3 [0; 0.1; 0.2; 0.3] 0)
    by in_range_by_computing.
  destruct (act_surplus_charges_battery demo_surplus 1 4%positive _ _ 3 _ _ _ _ _ _
              Hattr Hlay Hin)
    as (reward & w' & x' & Hact & Hlevel & Hx' & _ & Hr);
    [by_computing | by_computing | by_computing | now right; left
    | by_computing | by_computing |].
  exists reward, w', x'. split; [exact Hact|]. split; [exact Hlevel|].
  split; (etransitivity; [eassumption | by_computing]).
Defined.

Lemma heavy_ready_state :
  _lastPonctualObservation (self heavy_ready) = Some (Ref 4%positive)
  /\ layout (fixed (self heavy_ready)) (heap heavy_ready) 4%positive 1
       (PList [PNum 1; PList [PNum 0; PNum 0]])
  /\ in_range (self heavy_ready) 1 (10 * 2.1) (0 * 12000 / 1000 * 1) 10 0
       [0; 0] 0.
Proof.
  split; [by_computing|]. split.
  - eapply (layout_basic _ _ _ _ 3%positive); by_computing.
  - in_range_by_computing.
Defined.

Lemma act_shortfall_empties_battery_witness :
  exists reward w',
    act 1 heavy_ready = (Return reward, w')
    /\ battery_level w' = Some 0
    /\ reward == - 12.
Proof.
  destruct heavy_ready_state as (Hattr & Hlay & Hin).
  destruct (act_shortfall_empties_battery heavy_ready 1 4%positive 1 _ 1 _ _ _ _ _ _
              Hattr Hlay Hin)
    as (reward & w' & Hact & Hlevel & Hr & _);
    [by_computing | by_computing | now right; left
    | by_computing | by_computing |].
  exists reward, w'. split; [exact Hact|]. split; [exact Hlevel|].
  etransitivity; [exact Hr | by_computing].
Defined.


Lemma run_acts_within_series_witness :
  exists rewards w',
    run_acts [0; 2; 0]%Z demo_ready = (Return rewards, w')
    /\ length rewards = 3%nat
    /\ counter (self w') = Some 4%Z.
Proof.
  destruct demo_ready_layout as [Hattr Hlay].
  destruct (run_acts_within_series demo_ready [0; 2; 0]%Z 4%positive 1 _ 1
              (map (fun x => x * 2.1) [0.5; 1; 0.25; 0.75])
              (map (fun x => x * 12000 / 1000 * 1) [0; 0.1; 0.2; 0.3])
              [0.5; 1; 0.25; 0.75] [0; 0.1; 0.2; 0.3] 0 Hattr Hlay)
    as (rewards & w' & Hrun & Hlen & Hc);
    [by_computing .. | repeat constructor; lia | lia | by_computing |].
  exists rewards, w'. split; [exact Hrun|]. split; [exact Hlen | exact Hc].
Defined.

Lemma act_before_reset_raises_witness :
  act 0 demo_object = (Raise AttributeError, demo_object).
Proof.
  apply (act_before_reset_raises 0 0 demo_files ∅ demo_object 0). by_computing.
Defined.

Lemma init_with_fails_iff_empty_training_witness :
  (exists w, __init__ demo_files ∅ = Return w)
  /\ __init__ {| cons_train_npy := []; cons_test_npy := [1];
                 prod_train_npy := [0]; prod_test_npy := [0] |} ∅
     = Raise ValueError.
Proof.
  split.
  - apply (init_with_fails_iff_empty_training 0 0 demo_files ∅).
    split; discriminate.
  - apply (init_with_fails_iff_empty_training 0 0
             {| cons_train_npy := []; cons_test_npy := [1];
                prod_train_npy := [0]; prod_test_npy := [0] |} ∅).
    now left.
Defined.

Lemma init_with_min_max_bound_training_witness :
  In (min_consumption (fixed (self demo_object)))
    (consumption_train (fixed (self demo_object)))
  /\ In (max_production (fixed (self demo_object)))
       (production_train (fixed (self demo_object))).
Proof.
  destruct (init_with_min_max_bound_training 0 0 demo_files ∅ demo_object)
    as (_ & Hmin & _ & _ & _ & Hmax); [by_computing|].
  split; [exact Hmin | exact Hmax].
Defined.

Lemma init_with_splits_training_file_witness :
  consumption_train_norm (fixed (self demo_object))
  ++ consumption_valid_norm (fixed (self demo_object))
  = take (2 * (365 * 24)) (cons_train_npy demo_files).
Proof.
  destruct (init_with_splits_training_file 0 0 demo_files ∅ demo_object)
    as (H & _); [by_computing|].
  exact H.
Defined.

Lemma validation_episode_needs_second_year_witness :
  consumption (self demo_validation) = Some []
  /\ act 2 demo_validation = (Raise IndexError, demo_validation).
Proof.
  apply (validation_episode_needs_second_year 0 0 demo_files ∅
           demo_object demo_validation (PInt 0)
           (fst (reset (PInt 0) demo_object)) 2).
  - by_computing.
  - cbn. lia.
  - reflexivity.
  - apply surjective_pairing.
Defined.

Lemma observe_changes_nothing_witness :
  exists y w',
    observe demo_ready = (Return (Ref y), w')
    /\ self w' = self demo_ready
    /\ heap demo_ready !! y = None.
Proof.
  destruct demo_ready_layout as [Hattr Hlay].
  destruct (observe_changes_nothing demo_ready 4%positive 1 _ Hattr Hlay)
    as (y & w' & Hrun & Hself & _ & Hnew).
  exists y, w'. split; [exact Hrun|]. split; [exact Hself | exact Hnew].
Defined.

Lemma observe_after_construction_witness :
  exists y w t,
    observe demo_object = (Return (Ref y), w)
    /\ tree_of 2 (heap w) (Ref y) = Some t
    /\ all_zero t = true.
Proof.
  destruct (observe_after_construction 0 0 demo_files ∅ demo_object)
    as (y & w & t & Hrun & Htree & Hzero & _);
    [by_computing | right; right; split; reflexivity |].
  exists y, w, t. split; [exact Hrun|]. split; [exact Htree | exact Hzero].
Defined.

Lemma observe_after_act_witness :
  exists reward w1 y w2,
    act 1 demo_ready = (Return reward, w1)
    /\ observe w1 = (Return (Ref y), w2)
    /\ self w2 = self w1.
Proof.
  destruct demo_ready_layout as [Hattr Hlay].
  destruct (observe_after_act demo_ready 1 4%positive 1 _ 1 _ _ _ _ _ 0
              Hattr Hlay demo_ready_in_range)
    as (reward & w1 & y & w2 & Hact & Hobs & _ & Hself);
    [by_computing | by_computing | now right; left |].
  exists reward, w1, y, w2. split; [exact Hact|]. split; [exact Hobs | exact Hself].
Defined.

Lemma observation_matches_inputDimensions_witness :
  exists dims items,
    inputDimensions (snd (act 0 demo_ready))
    = (Return dims, snd (act 0 demo_ready))
    /\ observation (snd (act 0 demo_ready)) = Some (PList items)
    /\ length items = length dims.
Proof.
  destruct (observation_matches_inputDimensions 0 0 demo_files ∅ demo_object
              (snd (act 0 demo_ready)))
    as (dims & items & Hdims & _ & Hobs & Hlen & _);
    [by_computing | right; right; split; reflexivity
    | apply reach_act, reach_reset |].
  exists dims, items. split; [exact Hdims|]. split; [exact Hobs | exact Hlen].
Defined.

Lemma act_forecast_near_end_is_clipped_witness :
  exists reward w' x',
    act 1 demo_ready_full = (Return reward, w')
    /\ observation w'
       = Some (PList [PNum x'; PList [PNum 1; PNum 0.1]; PNum (seasonal 1);
                      PList [PNum (py_sum [0.1; 0.2; 0.3] / 24);
                             PNum (py_sum [0.1; 0.2; 0.3] / 48)]]).
Proof.
  destruct demo_ready_full_layout as [Hattr Hlay].
  assert (Hin : in_range (self demo_ready_full) 1 (0.5 * 2.1)
                  (0 * 12000 / 1000 * 1) 1 0.1 [0; 0.1; 0.2; 0.3] 0)
    by in_range_by_computing.
  destruct (act_forecast_near_end_is_clipped demo_ready_full 1 6%positive 1 _ 1
              _ _ _ _ _ _ Hattr Hlay Hin)
    as (reward & w' & Hact & Hobs & _);
    [by_computing | by_computing | now right; left | reflexivity | reflexivity
    | lia | cbn; lia |].
  eexists reward, w', _. split; [exact Hact | exact Hobs].
Defined.

Lemma cursor_at_least_one_witness :
  exists c,
    counter (self (snd (act 7 (snd (observe demo_ready))))) = Some c
    /\ (1 <= c)%Z.
Proof.
  apply (cursor_at_least_one demo_object).
  apply reach_act, reach_observe, reach_reset.
Defined.

Lemma reset_returns_separate_value_witness :
  exists ret w',
    reset (PInt 1) demo_object = (Return (Ref ret), w')
    /\ forall items,
         observation {| self := self w'; heap := <[ret := items]> (heap w') |}
         = observation w'.
Proof.
  destruct (reset_returns_separate_value demo_object (PInt 1))
    as (ret & w' & rest & rest' & Hrun & _ & _ & Hsep);
    [right; right; split; by_computing|].
  exists ret, w'. split; [exact Hrun | exact Hsep].
Defined.

Lemma act_seasonal_slot_in_unit_interval_witness :
  exists reward w' x' rest d,
    act 0 demo_ready_full = (Return reward, w')
    /\ observation w'
       = Some (PList (PNum x' :: PList [PNum 1; PNum 0.1] :: PNum d :: rest))
    /\ 0 <= d <= 1.
Proof.
  destruct demo_ready_full_layout as [Hattr Hlay].
  assert (Hin : in_range (self demo_ready_full) 1 (0.5 * 2.1)
                  (0 * 12000 / 1000 * 1) 1 0.1 [0; 0.1; 0.2; 0.3] 0)
    by in_range_by_computing.
  destruct (act_seasonal_slot_in_unit_interval demo_ready_full 0 6%positive 1 _ 1
              _ _ _ _ _ _ Hattr Hlay Hin)
    as (reward & w' & x' & rest & d & Hact & Hobs & _ & Hd & _);
    [by_computing | by_computing | now left | reflexivity | lia |].
  exists reward, w', x', rest, d. split; [exact Hact|]. split; [exact Hobs | exact Hd].
Defined.
